(** * calgen: the meeting-date recurrence engine of calgen.py and ical_writer.py

    Shallow embedding of
    - [letter_to_day], [SpecialDate], [duplicated_dates], [iter_meeting_dates]
      and [parse_time] of src/calgen.py,
    - the per-section loop of src/calgen.py (lines 278-346),
    - [ics_date], [ics_datetime], [date_to_rrule] and [recurring_event] of
      src/ical_writer.py.

    A Python [datetime.date] is represented by its proleptic Gregorian
    ordinal ([date.toordinal()]): [cur += one_day] is [+ 1], comparison is
    comparison of ordinals and [date.weekday()] is [(ordinal + 6) mod 7].
    [ymd2ord] and [ord2ymd] transcribe CPython's [_ymd2ord] and [_ord2ymd],
    used to write concrete dates and to render them with [strftime].
    Overflow past [date.max] is not modelled. *)

From Stdlib Require Import ZArith NArith List Bool Lia.
From Stdlib Require Import Strings.String Strings.Ascii.
From Stdlib Require Import Sorting.Sorted.
Import ListNotations.
Open Scope string_scope.
Open Scope Z_scope.

(* ------------------------------------------------------------------ *)
(** ** Dates (CPython datetime internals) *)

Definition is_leap (year : Z) : bool :=
  (year mod 4 =? 0) && ((negb (year mod 100 =? 0)) || (year mod 400 =? 0)).

(** [_DAYS_IN_MONTH] and [_DAYS_BEFORE_MONTH], index 0 unused (-1). *)
Definition DAYS_IN_MONTH : list Z := [-1; 31; 28; 31; 30; 31; 30; 31; 31; 30; 31; 30; 31].
Definition DAYS_BEFORE_MONTH : list Z := [-1; 0; 31; 59; 90; 120; 151; 181; 212; 243; 273; 304; 334].

Definition at_month (tbl : list Z) (m : Z) : Z := nth (Z.to_nat m) tbl (-1).

Definition days_before_year (year : Z) : Z :=
  let y := year - 1 in y * 365 + y / 4 - y / 100 + y / 400.

Definition days_before_month (year month : Z) : Z :=
  at_month DAYS_BEFORE_MONTH month + (if (month >? 2) && is_leap year then 1 else 0).

Definition ymd2ord (year month day : Z) : Z :=
  days_before_year year + days_before_month year month + day.

Definition DI400Y : Z := 146097.
Definition DI100Y : Z := 36524.
Definition DI4Y : Z := 1461.

Definition ord2ymd (n0 : Z) : Z * Z * Z :=
  let n := n0 - 1 in
  let n400 := n / DI400Y in let n := n mod DI400Y in
  let year := n400 * 400 + 1 in
  let n100 := n / DI100Y in let n := n mod DI100Y in
  let n4 := n / DI4Y in let n := n mod DI4Y in
  let n1 := n / 365 in let n := n mod 365 in
  let year := year + (n100 * 100 + n4 * 4 + n1) in
  if (n1 =? 4) || (n100 =? 4) then (year - 1, 12, 31)
  else
    let leapyear := (n1 =? 3) && (negb (n4 =? 24) || (n100 =? 3)) in
    let month := Z.shiftr (n + 50) 5 in
    let preceding := at_month DAYS_BEFORE_MONTH month
                     + (if (month >? 2) && leapyear then 1 else 0) in
    let '(month, preceding) :=
      if preceding >? n then
        let month := month - 1 in
        (month, preceding - (at_month DAYS_IN_MONTH month
                             + (if (month =? 2) && leapyear then 1 else 0)))
      else (month, preceding) in
    (year, month, n - preceding + 1).

(** [date.weekday()]: Monday is 0, Sunday is 6. *)
Definition weekday (d : Z) : Z := (d + 6) mod 7.

(* ------------------------------------------------------------------ *)
(** ** Special dates *)

(** [letter_to_day d = 'MTWRFSU'.index(d)]; [None] is the [ValueError]. *)
Definition letter_to_day (c : ascii) : option Z :=
  (fix go (s : string) (i : Z) : option Z :=
     match s with
     | EmptyString => None
     | String c' s' => if Ascii.eqb c c' then Some i else go s' (i + 1)
     end) "MTWRFSU"%string 0.

(** The value a special date puts in [effective_date]: a weekday index,
    the string ['END_OF_SEMESTER'], or the empty string (no class). *)
Inductive effect : Type :=
| EDay (n : Z)
| EEnd
| ENoClass.

Record SpecialDate : Type := mkSpecialDate {
  sd_date : Z;
  sd_name : string;
  sd_pattern : effect
}.

(** The pattern branch of [SpecialDate.__init__]; [None] is a [ValueError]. *)
Definition special_pattern (p : string) : option effect :=
  match p with
  | String c EmptyString => option_map EDay (letter_to_day c)
  | EmptyString => Some ENoClass
  | _ => if String.eqb p "END_OF_SEMESTER" then Some EEnd else None
  end.

(** [Counter([d.date for d in special_dates])]: the dates in order of first
    occurrence, and the count of each. *)
Fixpoint first_occurrences (ds : list Z) : list Z :=
  match ds with
  | [] => []
  | d :: r => d :: filter (fun e => negb (Z.eqb e d)) (first_occurrences r)
  end.

Definition count_date (ds : list Z) (d : Z) : nat :=
  List.length (filter (Z.eqb d) ds).

Definition duplicated_dates (specials : list SpecialDate) : list Z :=
  let ds := map sd_date specials in
  filter (fun d => Nat.ltb 1 (count_date ds d)) (first_occurrences ds).

(* ------------------------------------------------------------------ *)
(** ** Meeting Date Resolver: [iter_meeting_dates] *)

(** [days = [letter_to_day(d) for d in pattern]]. *)
Fixpoint pattern_days_l (cs : list ascii) : option (list Z) :=
  match cs with
  | [] => Some []
  | c :: r =>
      match letter_to_day c, pattern_days_l r with
      | Some n, Some ns => Some (n :: ns)
      | _, _ => None
      end
  end.

Definition pattern_days (pattern : string) : option (list Z) :=
  pattern_days_l (list_ascii_of_string pattern).

(** [x in days]: only an integer can be equal to an element of [days]. *)
Definition in_days (e : effect) (days : list Z) : bool :=
  match e with
  | EDay n => existsb (Z.eqb n) days
  | _ => false
  end.

Definition is_end (e : effect) : bool :=
  match e with EEnd => true | _ => false end.

(** [for special in special_dates: if cur == special.date:
       effective_date = special.pattern] (no [break]). *)
Fixpoint effective_of (cur : Z) (e : effect) (specials : list SpecialDate) : effect :=
  match specials with
  | [] => e
  | s :: r => effective_of cur (if Z.eqb cur (sd_date s) then sd_pattern s else e) r
  end.

(** The yielded tuple [(cur, meets_today, is_exception, is_abnormal_meeting)]. *)
Record classification : Type := mkClass {
  c_date : Z;
  meets_today : bool;
  is_exception : bool;
  is_abnormal_meeting : bool
}.

Section Resolver.
Variable days : list Z.
Variable specials : list SpecialDate.

Definition effective_at (cur : Z) : effect :=
  effective_of cur (EDay (weekday cur)) specials.

(** The body of the [while] loop, before [semester_ended] is updated. *)
Definition classify (semester_ended : bool) (cur : Z) : classification :=
  let true_date := weekday cur in
  let effective_date := effective_at cur in
  let normally_meets_today := in_days (EDay true_date) days in
  let meets := in_days effective_date days && negb semester_ended in
  {| c_date := cur;
     meets_today := meets;
     is_exception := normally_meets_today && negb meets;
     is_abnormal_meeting := negb normally_meets_today && meets |}.

(** [while cur <= end_date: ...; cur += one_day]; [fuel] bounds the number
    of iterations and is always large enough (see [iter_meeting_dates]). *)
Fixpoint walk (fuel : nat) (semester_ended : bool) (cur end_date : Z)
  : list classification :=
  match fuel with
  | O => []
  | S f =>
      if cur <=? end_date then
        classify semester_ended cur
          :: walk f (semester_ended || is_end (effective_at cur)) (cur + 1) end_date
      else []
  end.

(** [semester_ended] after the first [n] days starting at [start]. *)
Fixpoint ended_before (start : Z) (n : nat) : bool :=
  match n with
  | O => false
  | S k => ended_before start k || is_end (effective_at (start + Z.of_nat k))
  end.

End Resolver.

(** The generator, consumed with [list(...)]; [None] is the [ValueError]
    raised by [letter_to_day] on the first [next]. *)
Definition iter_meeting_dates (start_date end_date : Z) (pattern : string)
  (special_dates : list SpecialDate) : option (list classification) :=
  match pattern_days pattern with
  | None => None
  | Some days =>
      Some (walk days special_dates (Z.to_nat (end_date - start_date + 1))
              false start_date end_date)
  end.

(* ------------------------------------------------------------------ *)
(** ** Recurrence Compactor (calgen.py lines 301-318 and 333-335) *)

(** [actual_occurrences = [occur for occur in occurrences if occur[1]]]. *)
Definition actual_occurrences (occurrences : list classification) : list classification :=
  filter meets_today occurrences.

(** [[meeting_date for ... in occurrences
      if is_exception and meeting_date <= last_meeting_date]]. *)
Definition exceptions_dates (occurrences : list classification) (last_meeting_date : Z)
  : list Z :=
  map c_date (filter (fun c => is_exception c && (c_date c <=? last_meeting_date))
                occurrences).

(** The dates of the abnormal-meeting loop ([if not is_abnormal_meeting: continue]). *)
Definition abnormal_dates (occurrences : list classification) : list Z :=
  map c_date (filter is_abnormal_meeting occurrences).

Record compacted : Type := mkCompacted {
  first_meeting_date : Z;
  last_meeting_date : Z;
  exclusion_dates : list Z;
  abnormal_meeting_dates : list Z
}.

(** [None] is the [IndexError] of [actual_occurrences[0]] on an empty list. *)
Definition compact (occurrences : list classification) : option compacted :=
  match actual_occurrences occurrences with
  | [] => None
  | a :: r =>
      let last_meeting := c_date (List.last (a :: r) a) in
      Some {| first_meeting_date := c_date a;
              last_meeting_date := last_meeting;
              exclusion_dates := exceptions_dates occurrences last_meeting;
              abnormal_meeting_dates := abnormal_dates occurrences |}
  end.

(* ------------------------------------------------------------------ *)
(** ** [parse_time]

    [re.match(r'^(\d+):(\d+) (AM|PM)', x).groups()] followed by [int()] and
    the 12-hour adjustment. Strings are ASCII. Each [\d+] is greedy and is
    followed by a non-digit, so the match does not depend on backtracking.
    [inl AttributeError] is the error of [.groups()] on the [None] returned
    by [re.match]; [inl ValueError] is the error of [int()] on a run of
    digits longer than CPython's limit on integer string conversion. *)

(** The Python exceptions a section can raise in the loop. *)
Inductive exn : Type :=
| IndexError
| ValueError
| AttributeError.

Definition is_digit (c : ascii) : bool :=
  Nat.leb 48 (nat_of_ascii c) && Nat.leb (nat_of_ascii c) 57.

(** The longest prefix of digits, and the rest. *)
Fixpoint take_digits (s : string) : string * string :=
  match s with
  | EmptyString => (EmptyString, EmptyString)
  | String c s' =>
      if is_digit c then let '(d, r) := take_digits s' in (String c d, r)
      else (EmptyString, s)
  end.

Fixpoint int_of_digits_acc (acc : Z) (s : string) : Z :=
  match s with
  | EmptyString => acc
  | String c s' => int_of_digits_acc (acc * 10 + (Z.of_nat (nat_of_ascii c) - 48)) s'
  end.

(** The value of a string of decimal digits. *)
Definition int_of_digits (s : string) : Z := int_of_digits_acc 0 s.

(** [sys.get_int_max_str_digits()] at its default (CPython 3.11). *)
Definition int_max_str_digits : nat := 4300.

(** [int(s)] for a string of decimal digits: CPython raises [ValueError] on
    a string of more than [int_max_str_digits] digits. *)
Definition py_int (s : string) : sum exn Z :=
  if Nat.ltb int_max_str_digits (String.length s) then inl ValueError
  else inr (int_of_digits s).

(** The [dict(hour=..., minute=...)]. *)
Record time : Type := mkTime { hour : Z; minute : Z }.

Definition parse_time (x : string) : sum exn time :=
  let '(h, r1) := take_digits x in
  match h, r1 with
  | String _ _, String colon r2 =>
      if Ascii.eqb colon ":" then
        let '(m, r3) := take_digits r2 in
        match m, r3 with
        | String _ _, String sp (String mer (String mM _)) =>
            if Ascii.eqb sp " " && (Ascii.eqb mer "A" || Ascii.eqb mer "P")
               && Ascii.eqb mM "M" then
              match py_int h with
              | inl e => inl e
              | inr hour =>
                  match py_int m with
                  | inl e => inl e
                  | inr min =>
                      let hour := if hour =? 12 then 0 else hour in
                      let hour := if Ascii.eqb mer "P" then hour + 12 else hour in
                      inr {| hour := hour; minute := min |}
                  end
              end
            else inl AttributeError
        | _, _ => inl AttributeError
        end
      else inl AttributeError
  | _, _ => inl AttributeError
  end.

(** [s * n], Python's repetition of a string. *)
Fixpoint str_mul (n : nat) (s : string) : string :=
  match n with
  | O => EmptyString
  | S n' => s ++ str_mul n' s
  end.

(* ------------------------------------------------------------------ *)
(** ** Calendar Serializer: [recurring_event] of ical_writer.py *)

Definition NL : string := String (ascii_of_nat 10) EmptyString.

Fixpoint dec_aux (fuel : nat) (n : N) (acc : string) : string :=
  match fuel with
  | O => acc
  | S f =>
      let acc := String (ascii_of_N (48 + N.modulo n 10)) acc in
      if N.ltb n 10 then acc else dec_aux f (N.div n 10) acc
  end.

(** Decimal digits of a natural number. *)
Definition dec (n : N) : string := dec_aux (S (N.size_nat n)) n EmptyString.

Fixpoint zeros (k : nat) : string :=
  match k with O => EmptyString | S k' => String "0" (zeros k') end.

Definition zpad (w : nat) (s : string) : string := zeros (w - String.length s) ++ s.

(** [f"{n:0wd}"]: zero padding to width [w], the sign counted in the width. *)
Definition fmt0d (w : nat) (n : Z) : string :=
  if n <? 0 then String "-" (zpad (w - 1) (dec (Z.to_N (- n))))
  else zpad w (dec (Z.to_N n)).

(** [date.strftime("%Y%m%d")] as CPython 3.11 renders it through glibc's
    [strftime]: [%Y] is the year in decimal without padding (year 5 gives
    "5"), [%m] and [%d] take two digits. *)
Definition ics_date (d : Z) : string :=
  let '(y, m, dd) := ord2ymd d in dec (Z.to_N y) ++ fmt0d 2 m ++ fmt0d 2 dd.

Definition ics_datetime (d : Z) (t : time) : string :=
  ics_date d ++ "T" ++ fmt0d 2 (hour t) ++ fmt0d 2 (minute t) ++ "00".

Definition date_to_rrule : list (ascii * string) :=
  [("U"%char, "SU"); ("M"%char, "MO"); ("T"%char, "TU"); ("W"%char, "WE");
   ("R"%char, "TH"); ("F"%char, "FR"); ("S"%char, "SA")].

(** [date_to_rrule[d]]; [None] is the [KeyError]. *)
Fixpoint lookup_rrule (tbl : list (ascii * string)) (c : ascii) : option string :=
  match tbl with
  | [] => None
  | (k, v) :: r => if Ascii.eqb c k then Some v else lookup_rrule r c
  end.

Fixpoint map_opt {A B : Type} (f : A -> option B) (l : list A) : option (list B) :=
  match l with
  | [] => Some []
  | x :: r =>
      match f x, map_opt f r with
      | Some y, Some ys => Some (y :: ys)
      | _, _ => None
      end
  end.

(** [sep.join(l)]. *)
Fixpoint join (sep : string) (l : list string) : string :=
  match l with
  | [] => EmptyString
  | [x] => x
  | x :: r => x ++ sep ++ join sep r
  end.

Definition exdate_line (start_time_p : time) (exdate : Z) : string :=
  "EXDATE;TZID=America/Detroit:" ++ ics_datetime exdate start_time_p.

Definition vevent_text (dtstamp uid summary location : string) (first_date : Z)
  (start_time_p end_time_p : time) (rrule exceptions_str : string) : string :=
  "BEGIN:VEVENT" ++ NL ++
  "DTSTAMP:" ++ dtstamp ++ NL ++
  "SUMMARY:" ++ summary ++ NL ++
  "LOCATION:" ++ location ++ NL ++
  "DTSTART;TZID=America/Detroit:" ++ ics_datetime first_date start_time_p ++ NL ++
  "DTEND;TZID=America/Detroit:" ++ ics_datetime first_date end_time_p ++ NL ++
  "UID:" ++ uid ++ NL ++
  rrule ++ NL ++
  exceptions_str ++ NL ++
  "END:VEVENT" ++ NL.

(** [recurring_event]; the generated [DTSTAMP] and [UID] are inputs.
    [None] is an exception: [KeyError] on a pattern letter,
    [AttributeError] on [None.strftime] for a missing [last_date], or the
    [assert len(exceptions) == 0]. *)
Definition recurring_event (dtstamp uid : string) (first_date : Z)
  (last_date : option Z) (summary location : string)
  (start_time_p end_time_p : time) (meeting_pattern : option string)
  (exceptions : list Z) : option string :=
  match meeting_pattern with
  | Some mp =>
      match map_opt (lookup_rrule date_to_rrule) (list_ascii_of_string mp), last_date with
      | Some codes, Some last =>
          let pattern := join "," codes in
          let rrule := "RRULE:FREQ=WEEKLY;INTERVAL=1;BYDAY=" ++ pattern ++ ";UNTIL="
                       ++ ics_datetime last (mkTime 23 59) ++ "Z" in
          let exceptions_str := join NL (map (exdate_line start_time_p) exceptions) in
          Some (vevent_text dtstamp uid summary location first_date
                  start_time_p end_time_p rrule exceptions_str)
      | _, _ => None
      end
  | None =>
      match exceptions with
      | [] => Some (vevent_text dtstamp uid summary location first_date
                      start_time_p end_time_p EmptyString EmptyString)
      | _ => None
      end
  end.

(** [s.split('\n')]. *)
Fixpoint split_nl (s : string) : list string :=
  match s with
  | EmptyString => [EmptyString]
  | String c s' =>
      let r := split_nl s' in
      if Ascii.eqb c (ascii_of_nat 10) then EmptyString :: r
      else match r with
           | [] => [String c EmptyString]
           | l :: ls => String c l :: ls
           end
  end.

(** The weekday-letter to BYDAY code mapping as the spec lists it. *)
Definition spec_wire_code (c : ascii) : string :=
  if Ascii.eqb c "M" then "MO" else if Ascii.eqb c "T" then "TU"
  else if Ascii.eqb c "W" then "WE" else if Ascii.eqb c "R" then "TH"
  else if Ascii.eqb c "F" then "FR" else if Ascii.eqb c "S" then "SA"
  else if Ascii.eqb c "U" then "SU" else EmptyString.

Definition is_weekday_letter (c : ascii) : bool :=
  match letter_to_day c with Some _ => true | None => false end.

Definition has_nl (s : string) : bool :=
  existsb (fun c => Ascii.eqb c (ascii_of_nat 10)) (list_ascii_of_string s).

(* ------------------------------------------------------------------ *)
(** ** The per-section loop of calgen.py (lines 278-346) *)

(** [s.split(sep)] for a non-empty [sep]; [fuel] is [String.length s + 1]. *)
Fixpoint split_sep_aux (fuel : nat) (sep s : string) : list string :=
  match fuel with
  | O => [s]
  | S f =>
      match s with
      | EmptyString => [EmptyString]
      | String c s' =>
          if String.prefix sep s then
            EmptyString
              :: split_sep_aux f sep (substring (String.length sep) (String.length s) s)
          else match split_sep_aux f sep s' with
               | [] => [String c EmptyString]
               | l :: ls => String c l :: ls
               end
      end
  end.

Definition split_sep (sep s : string) : list string :=
  split_sep_aux (S (String.length s)) sep s.

(** A row of the edited table; [ae_meeting_time] is [None] when the cell
    is not a [str] (an empty cell). *)
Record AcademicEvent : Type := mkAcademicEvent {
  ae_pattern : string;
  ae_name : string;
  ae_location : string;
  ae_meeting_time : option string;
  ae_start_date : Z;
  ae_end_date : Z
}.

(** The arguments of one [recurring_event(...)] call of the loop. *)
Record RecurringEventArgs : Type := mkRecurringEventArgs {
  re_first_date : Z;
  re_last_date : option Z;
  re_summary : string;
  re_location : string;
  re_start_time_p : time;
  re_end_time_p : time;
  re_meeting_pattern : option string;
  re_exceptions : list Z
}.

Inductive section_result : Type :=
| SectionSkipped (warning : string)
| SectionRaised (e : exn)
| SectionEvents (events : list RecurringEventArgs).

(** What the script reaches: an uncaught exception stops it; otherwise the
    loop finishes with its [st.warning] messages and [recurring_events]. *)
Inductive run_outcome : Type :=
| RunRaised (e : exn)
| RunFinished (warnings : list string) (recurring_events : list RecurringEventArgs).

Section Loop.
Variable special_dates : list SpecialDate.

(** One iteration of [for i, academic_event in enumerate(academic_events)].
    The sample-week preview ([get_sample_week_events]) only feeds the
    picture and is left out. *)
Definition process_section (ae : AcademicEvent) : section_result :=
  let section_name := ae_name ae in
  match ae_meeting_time ae with
  | None => SectionSkipped ("Skipping " ++ section_name ++ " because no meeting times.")
  | Some meeting_time =>
      match split_sep " - " meeting_time with
      | [start_time; end_time] =>
          match parse_time start_time with
          | inl e => SectionRaised e
          | inr start_time_p =>
          match parse_time end_time with
          | inl e => SectionRaised e
          | inr end_time_p =>
              match iter_meeting_dates (ae_start_date ae) (ae_end_date ae)
                      (ae_pattern ae) special_dates with
              | None => SectionRaised ValueError
              | Some occurrences =>
                  match compact occurrences with
                  | None => SectionRaised IndexError
                  | Some cp =>
                      SectionEvents
                        ({| re_first_date := first_meeting_date cp;
                            re_last_date := Some (last_meeting_date cp);
                            re_summary := section_name;
                            re_location := ae_location ae;
                            re_start_time_p := start_time_p;
                            re_end_time_p := end_time_p;
                            re_meeting_pattern := Some (ae_pattern ae);
                            re_exceptions := exclusion_dates cp |}
                         :: map (fun meeting_date =>
                                   {| re_first_date := meeting_date;
                                      re_last_date := None;
                                      re_summary := section_name;
                                      re_location := ae_location ae;
                                      re_start_time_p := start_time_p;
                                      re_end_time_p := end_time_p;
                                      re_meeting_pattern := None;
                                      re_exceptions := [] |})
                                (abnormal_meeting_dates cp))
                  end
              end
          end
          end
      | _ => SectionRaised ValueError
      end
  end.

Fixpoint run_sections (aes : list AcademicEvent) (warnings : list string)
  (recurring_events : list RecurringEventArgs) : run_outcome :=
  match aes with
  | [] => RunFinished warnings recurring_events
  | ae :: rest =>
      match process_section ae with
      | SectionSkipped w => run_sections rest (warnings ++ [w])%list recurring_events
      | SectionRaised e => RunRaised e
      | SectionEvents evs => run_sections rest warnings (recurring_events ++ evs)%list
      end
  end.

End Loop.

(* ------------------------------------------------------------------ *)
(** ** Vocabulary of the statements *)

(** The pattern of the last entry of the table dated [cur], if any. *)
Fixpoint last_match (cur : Z) (specials : list SpecialDate) : option effect :=
  match specials with
  | [] => None
  | s :: r =>
      match last_match cur r with
      | Some p => Some p
      | None => if Z.eqb cur (sd_date s) then Some (sd_pattern s) else None
      end
  end.

(** The pattern of the first entry of the table dated [cur], if any. *)
Fixpoint first_match (cur : Z) (specials : list SpecialDate) : option effect :=
  match specials with
  | [] => None
  | s :: r => if Z.eqb cur (sd_date s) then Some (sd_pattern s) else first_match cur r
  end.

Definition all_digits (s : string) : bool := forallb is_digit (list_ascii_of_string s).

Definition meridian (pm : bool) : string := if pm then "PM" else "AM".

(** The rest of a string after a maximal run of digits. *)
Definition no_digit_head (r : string) : Prop :=
  match r with String c _ => is_digit c = false | EmptyString => True end.

(* ------------------------------------------------------------------ *)
(** ** More of ical_writer.py: [all_day_event], [header], [footer], [write_ics] *)

(** [all_day_event]; [None] is the [assert '\n' not in summary]. *)
Definition all_day_event (dtstamp uid : string) (date : Z) (summary : string)
  : option string :=
  if has_nl summary then None
  else Some ("BEGIN:VEVENT" ++ NL ++
             "DTSTART;VALUE=DATE:" ++ ics_date date ++ NL ++
             "SUMMARY:" ++ summary ++ NL ++
             "UID:" ++ uid ++ NL ++
             "DTSTAMP:" ++ dtstamp ++ NL ++
             "END:VEVENT" ++ NL).

Definition header_lines : list string :=
  ["BEGIN:VCALENDAR"; "PRODID:-//Ken Arnold//Workday to ICS//EN"; "VERSION:2.0";
   "CALSCALE:GREGORIAN"; "METHOD:PUBLISH"; "BEGIN:VTIMEZONE"; "TZID:America/Detroit";
   "X-LIC-LOCATION:America/Detroit"; "BEGIN:DAYLIGHT"; "TZOFFSETFROM:-0500";
   "TZOFFSETTO:-0400"; "TZNAME:EDT"; "DTSTART:19700308T020000";
   "RRULE:FREQ=YEARLY;BYMONTH=3;BYDAY=2SU"; "END:DAYLIGHT"; "BEGIN:STANDARD";
   "TZOFFSETFROM:-0400"; "TZOFFSETTO:-0500"; "TZNAME:EST"; "DTSTART:19701101T020000";
   "RRULE:FREQ=YEARLY;BYMONTH=11;BYDAY=1SU"; "END:STANDARD"; "END:VTIMEZONE"].

Definition header : string := join NL header_lines ++ NL.

Definition footer : string := "END:VCALENDAR" ++ NL.

Definition CRLF : string := String (ascii_of_nat 13) NL.

(** [str.isspace] on one character, read as a Latin-1 code point. *)
Definition is_space (c : ascii) : bool :=
  let n := nat_of_ascii c in
  ((9 <=? n) && (n <=? 13))%nat || ((28 <=? n) && (n <=? 32))%nat
  || (n =? 133)%nat || (n =? 160)%nat.

(** [not line.strip()]. *)
Definition is_blank (line : string) : bool := forallb is_space (list_ascii_of_string line).

Definition write_ics (events : list string) : string :=
  let result := header ++ NL ++ join NL events ++ NL ++ footer in
  let lines := split_nl result in
  let lines := filter (fun line => negb (is_blank line)) lines in
  join CRLF lines.

(* ------------------------------------------------------------------ *)
(** ** [get_sample_week_events] of calgen.py *)

(** The arguments of one [CVEvent(day=..., start=..., end=..., title=...)]. *)
Record SampleEvent : Type := mkSampleEvent {
  sv_day : Z;
  sv_start : string;
  sv_end : string;
  sv_title : string
}.

(** [while cur.weekday() != 0: cur += datetime.timedelta(days=1)]; at most
    six steps are taken, [fuel] is 7. *)
Fixpoint next_monday (fuel : nat) (cur : Z) : Z :=
  match fuel with
  | O => cur
  | S f => if weekday cur =? 0 then cur else next_monday f (cur + 1)
  end.

Section SampleWeek.
Variable days : list Z.
Variables start end_ title : string.

(** [for i in range(7): if i in days: ...append(CVEvent(day=cur, ...));
    cur += 1], over the remaining indices [is]. *)
Fixpoint sample_week_loop (is : list Z) (cur : Z) : list SampleEvent :=
  match is with
  | [] => []
  | i :: r =>
      app (if existsb (Z.eqb i) days
           then [mkSampleEvent cur start end_ title] else [])
          (sample_week_loop r (cur + 1))
  end.
End SampleWeek.

Definition get_sample_week_events (pattern : string) (sample_week_start : Z)
  (start_time end_time : time) (title : string) : option (list SampleEvent) :=
  match pattern_days pattern with
  | None => None
  | Some days =>
      let cur := next_monday 7 sample_week_start in
      Some (sample_week_loop days
              (fmt0d 2 (hour start_time) ++ ":" ++ fmt0d 2 (minute start_time))
              (fmt0d 2 (hour end_time) ++ ":" ++ fmt0d 2 (minute end_time))
              title [0; 1; 2; 3; 4; 5; 6] cur)
  end.

(* ------------------------------------------------------------------ *)
(** ** Calendar-date checks *)

(** [_days_in_month]. *)
Definition days_in_month (year month : Z) : Z :=
  if (month =? 2) && is_leap year then 29 else at_month DAYS_IN_MONTH month.

(** The integers [start .. start + n - 1]. *)
Fixpoint zrange (start : Z) (n : nat) : list Z :=
  match n with O => [] | S k => start :: zrange (start + 1) k end.

(** The month step of [ord2ymd]: from the 0-based day of the year [n] and
    the leap flag, the month and the day of the month. *)
Definition month_step (leapyear : bool) (n : Z) : Z * Z :=
  let month := Z.shiftr (n + 50) 5 in
  let preceding := at_month DAYS_BEFORE_MONTH month
                   + (if (month >? 2) && leapyear then 1 else 0) in
  let '(month, preceding) :=
    if preceding >? n then
      let month := month - 1 in
      (month, preceding - (at_month DAYS_IN_MONTH month
                           + (if (month =? 2) && leapyear then 1 else 0)))
    else (month, preceding) in
  (month, n - preceding + 1).

(** For one kind of year: every month starts at a non-negative day of the
    year and ends within the year, and [month_step] maps the day of the year
    of each [(month, day)] back to [(month, day)]. *)
Definition month_table_ok (leap : bool) : bool :=
  forallb (fun m =>
    let dim := if (m =? 2) && leap then 29 else at_month DAYS_IN_MONTH m in
    let dbm := at_month DAYS_BEFORE_MONTH m + (if (m >? 2) && leap then 1 else 0) in
    (0 <=? dbm) && (dbm + dim <=? 365 + (if leap then 1 else 0)) &&
    forallb (fun d => let '(m', d') := month_step leap (dbm + d - 1) in
                      (m' =? m) && (d' =? d))
            (zrange 1 (Z.to_nat dim)))
  (zrange 1 12).

(* ------------------------------------------------------------------ *)
(** ** The walk, day by day *)

Section WalkFacts.
Variable days : list Z.
Variable specials : list SpecialDate.

Lemma ended_before_shift (start : Z) (k : nat) :
  ended_before specials start (S k)
  = is_end (effective_at specials start) || ended_before specials (start + 1) k.
Proof.
  induction k as [|k IH].
  - simpl. rewrite Z.add_0_r. destruct (is_end _); reflexivity.
  - change (ended_before specials start (S (S k)))
      with (ended_before specials start (S k)
            || is_end (effective_at specials (start + Z.of_nat (S k)))).
    rewrite IH. cbn [ended_before].
    replace (start + Z.of_nat (S k)) with (start + 1 + Z.of_nat k) by lia.
    now rewrite orb_assoc.
Qed.

Lemma ended_before_mono (start : Z) (i j : nat) :
  (i < j)%nat ->
  is_end (effective_at specials (start + Z.of_nat i)) = true ->
  ended_before specials start j = true.
Proof.
  intros Hij Hend. induction j as [|j IH]; [lia|].
  simpl. destruct (Nat.eq_dec i j) as [->|Hne].
  - now rewrite Hend, orb_true_r.
  - rewrite IH by lia. reflexivity.
Qed.

(** The [i]-th yielded tuple is the loop body run on day [cur + i] with the
    flag accumulated over the days before it. *)
Lemma walk_nth (fuel : nat) (flag : bool) (cur end_date : Z) (i : nat)
  (c : classification) :
  (Z.to_nat (end_date - cur + 1) <= fuel)%nat ->
  nth_error (walk days specials fuel flag cur end_date) i = Some c <->
  (cur + Z.of_nat i <= end_date /\
   c = classify days specials (flag || ended_before specials cur i)
         (cur + Z.of_nat i)).
Proof.
  revert flag cur i.
  induction fuel as [|f IH]; intros flag cur i Hfuel; simpl.
  - destruct i; simpl; split; try discriminate; lia.
  - destruct (cur <=? end_date) eqn:Hle.
    + destruct i as [|k]; cbn [nth_error].
      * cbn [ended_before Z.of_nat]. rewrite Z.add_0_r, orb_false_r.
        split; [intros H; injection H as <-; split; [lia|reflexivity]|].
        intros [_ ->]. reflexivity.
      * rewrite (IH _ _ k) by lia.
        rewrite ended_before_shift, orb_assoc.
        replace (cur + Z.of_nat (S k)) with (cur + 1 + Z.of_nat k) by lia.
        reflexivity.
    + destruct i; simpl; split; try discriminate; lia.
Qed.

Lemma walk_length (fuel : nat) (flag : bool) (cur end_date : Z) :
  (Z.to_nat (end_date - cur + 1) <= fuel)%nat ->
  List.length (walk days specials fuel flag cur end_date)
  = Z.to_nat (end_date - cur + 1).
Proof.
  revert flag cur.
  induction fuel as [|f IH]; intros flag cur Hfuel; simpl; [lia|].
  destruct (cur <=? end_date) eqn:Hle;
    [apply Z.leb_le in Hle | apply Z.leb_gt in Hle].
  - simpl. rewrite IH by lia. lia.
  - simpl; lia.
Qed.

Lemma walk_In (fuel : nat) (flag : bool) (cur end_date : Z) (c : classification) :
  In c (walk days specials fuel flag cur end_date) ->
  exists ended, c = classify days specials ended (c_date c).
Proof.
  revert flag cur.
  induction fuel as [|f IH]; intros flag cur Hin; simpl in Hin; [contradiction|].
  destruct (cur <=? end_date); [|contradiction].
  destruct Hin as [<- | Hin]; [|eauto].
  now exists flag.
Qed.

End WalkFacts.

Lemma iter_meeting_dates_nth (start_date end_date : Z) (pattern : string)
  (specials : list SpecialDate) (days : list Z) (cs : list classification)
  (i : nat) (c : classification) :
  pattern_days pattern = Some days ->
  iter_meeting_dates start_date end_date pattern specials = Some cs ->
  nth_error cs i = Some c <->
  (start_date + Z.of_nat i <= end_date /\
   c = classify days specials (ended_before specials start_date i)
         (start_date + Z.of_nat i)).
Proof.
  unfold iter_meeting_dates. intros Hp Hit. rewrite Hp in Hit.
  injection Hit as <-. apply walk_nth. lia.
Qed.

Lemma ended_before_nil (start : Z) (n : nat) : ended_before [] start n = false.
Proof. induction n as [|n IH]; simpl; [reflexivity|]. now rewrite IH. Qed.

Lemma effective_of_last_match (cur : Z) (specials : list SpecialDate) :
  forall e, effective_of cur e specials
            = match last_match cur specials with Some p => p | None => e end.
Proof.
  induction specials as [|s r IH]; intros e; simpl; [reflexivity|].
  rewrite IH. destruct (last_match cur r); [reflexivity|].
  destruct (cur =? sd_date s); reflexivity.
Qed.

Lemma first_occurrences_In (ds : list Z) (d : Z) :
  In d (first_occurrences ds) <-> In d ds.
Proof.
  induction ds as [|x r IH]; simpl; [tauto|].
  rewrite filter_In, IH, negb_true_iff, Z.eqb_neq.
  split; [tauto|]. intros [->|H]; [now left|].
  destruct (Z.eq_dec x d); [now left | right; split; auto].
Qed.

Lemma count_date_In (ds : list Z) (d : Z) :
  (0 < count_date ds d)%nat -> In d ds.
Proof.
  unfold count_date. intros H.
  destruct (filter (Z.eqb d) ds) as [|x l] eqn:Hf; simpl in H; [lia|].
  assert (Hx : In x (filter (Z.eqb d) ds)) by (rewrite Hf; now left).
  apply filter_In in Hx as [Hin Heq]. apply Z.eqb_eq in Heq. now subst.
Qed.

Lemma filter_app_in {A : Type} (f : A -> bool) (pre : list A) (x : A) (l : list A) :
  filter f l = (pre ++ [x])%list -> In x l /\ f x = true.
Proof.
  intros H. assert (Hx : In x (filter f l)) by (rewrite H; apply in_or_app; right; now left).
  now apply filter_In in Hx.
Qed.

Lemma last_snoc {A : Type} (l : list A) (d : A) :
  l <> [] -> exists pre, l = (pre ++ [List.last l d])%list.
Proof.
  intros Hne. exists (removelast l). now apply app_removelast_last.
Qed.

Lemma classify_flags (days : list Z) (specials : list SpecialDate) (ended : bool)
  (d : Z) :
  let c := classify days specials ended d in
  is_exception c && is_abnormal_meeting c = false /\
  (meets_today c = in_days (EDay (weekday (c_date c))) days ->
   is_exception c = false /\ is_abnormal_meeting c = false).
Proof.
  unfold classify. cbn [is_exception is_abnormal_meeting meets_today c_date].
  destruct (in_days (EDay (weekday d)) days);
    destruct (in_days (effective_at specials d) days && negb ended);
    cbn; split; intros; try discriminate; auto.
Qed.

(* ------------------------------------------------------------------ *)
(** ** Meeting Date Resolver *)

(** C4: with an empty exception table the walk yields exactly one tuple per
    day of [start_date..end_date], the [i]-th for [start_date + i], and its
    [meets_today] is "the true weekday is in the pattern". *)
Theorem iter_meeting_dates_exception_free (start_date end_date : Z)
  (pattern : string) (days : list Z) :
  pattern_days pattern = Some days ->
  exists cs,
    iter_meeting_dates start_date end_date pattern [] = Some cs /\
    List.length cs = Z.to_nat (end_date - start_date + 1) /\
    (forall i c, nth_error cs i = Some c ->
       c_date c = start_date + Z.of_nat i /\
       meets_today c = in_days (EDay (weekday (c_date c))) days).
Proof.
  intros Hp. unfold iter_meeting_dates. rewrite Hp.
  eexists; split; [reflexivity|]. split.
  - apply walk_length. lia.
  - intros i c Hi. apply walk_nth in Hi; [|lia].
    destruct Hi as [_ ->]. rewrite ended_before_nil. simpl.
    split; [reflexivity|]. now rewrite andb_true_r.
Qed.

Lemma iter_meeting_dates_exception_free_witness :
  pattern_days "MWF" = Some [0; 2; 4] /\
  exists cs,
    iter_meeting_dates (ymd2ord 2024 9 2) (ymd2ord 2024 9 13) "MWF" [] = Some cs /\
    List.length cs = Z.to_nat (ymd2ord 2024 9 13 - ymd2ord 2024 9 2 + 1) /\
    (forall i c, nth_error cs i = Some c ->
       c_date c = ymd2ord 2024 9 2 + Z.of_nat i /\
       meets_today c = in_days (EDay (weekday (c_date c))) [0; 2; 4]).
Proof.
  split; [reflexivity|].
  apply (iter_meeting_dates_exception_free _ _ "MWF" [0; 2; 4]). reflexivity.
Defined.

(** C5: no yielded tuple is both an exception and an abnormal meeting, and
    both flags are false on a day where the pattern and the effective
    weekday agree ([meets_today] equals "the true weekday is in the
    pattern"). *)
Theorem iter_meeting_dates_flags_exclusive (start_date end_date : Z)
  (pattern : string) (specials : list SpecialDate) (days : list Z)
  (cs : list classification) :
  pattern_days pattern = Some days ->
  iter_meeting_dates start_date end_date pattern specials = Some cs ->
  forall c, In c cs ->
    is_exception c && is_abnormal_meeting c = false /\
    (meets_today c = in_days (EDay (weekday (c_date c))) days ->
     is_exception c = false /\ is_abnormal_meeting c = false).
Proof.
  unfold iter_meeting_dates. intros Hp Hit c Hin. rewrite Hp in Hit.
  injection Hit as <-. apply walk_In in Hin as [ended Hc].
  rewrite Hc. apply classify_flags.
Qed.

Lemma iter_meeting_dates_flags_exclusive_witness :
  pattern_days "MWF" = Some [0; 2; 4] /\
  iter_meeting_dates (ymd2ord 2024 9 6) (ymd2ord 2024 9 7) "MWF"
    [mkSpecialDate (ymd2ord 2024 9 6) "Holiday" ENoClass;
     mkSpecialDate (ymd2ord 2024 9 7) "Monday schedule" (EDay 0)]
  = Some [mkClass (ymd2ord 2024 9 6) false true false;
          mkClass (ymd2ord 2024 9 7) true false true] /\
  (forall c, In c [mkClass (ymd2ord 2024 9 6) false true false;
                   mkClass (ymd2ord 2024 9 7) true false true] ->
    is_exception c && is_abnormal_meeting c = false /\
    (meets_today c = in_days (EDay (weekday (c_date c))) [0; 2; 4] ->
     is_exception c = false /\ is_abnormal_meeting c = false)).
Proof.
  split; [reflexivity|]. split; [vm_compute; reflexivity|].
  apply (iter_meeting_dates_flags_exclusive (ymd2ord 2024 9 6) (ymd2ord 2024 9 7) "MWF"
           [mkSpecialDate (ymd2ord 2024 9 6) "Holiday" ENoClass;
            mkSpecialDate (ymd2ord 2024 9 7) "Monday schedule" (EDay 0)]);
    [reflexivity | vm_compute; reflexivity].
Defined.

(** C1 (as stated, refuted): the claim reads "the SemesterEnd date itself is
    evaluated against the pattern normally", i.e. it meets when its weekday
    is in the pattern. On Monday 2024-09-02 with pattern "M" and an
    [END_OF_SEMESTER] entry for that day, its weekday is in the pattern but
    it is yielded with [meets_today = false]. *)
Lemma semester_end_day_counterexample :
  pattern_days "M" = Some [0] /\
  in_days (EDay (weekday (ymd2ord 2024 9 2))) [0] = true /\
  iter_meeting_dates (ymd2ord 2024 9 2) (ymd2ord 2024 9 2) "M"
    [mkSpecialDate (ymd2ord 2024 9 2) "Study" EEnd]
  = Some [mkClass (ymd2ord 2024 9 2) false true false].
Proof. split; [reflexivity|]. split; vm_compute; reflexivity. Qed.

(** C1 (amended): once the walk reaches the [i]-th day, whose effective
    value is [END_OF_SEMESTER], every later day has [meets_today = false];
    that day itself is classified with the flag accumulated over the days
    strictly before it, and since [END_OF_SEMESTER] is in no pattern it has
    [meets_today = false], [is_exception] equal to "its weekday is in the
    pattern" and [is_abnormal_meeting = false]. *)
Theorem iter_meeting_dates_semester_end (start_date end_date : Z)
  (pattern : string) (specials : list SpecialDate) (days : list Z)
  (cs : list classification) (i : nat) (ci : classification) :
  pattern_days pattern = Some days ->
  iter_meeting_dates start_date end_date pattern specials = Some cs ->
  nth_error cs i = Some ci ->
  effective_at specials (c_date ci) = EEnd ->
  (forall j cj, (i < j)%nat -> nth_error cs j = Some cj -> meets_today cj = false) /\
  ci = classify days specials (ended_before specials start_date i) (c_date ci) /\
  meets_today ci = false /\
  is_exception ci = in_days (EDay (weekday (c_date ci))) days /\
  is_abnormal_meeting ci = false.
Proof.
  intros Hp Hit Hi Hend.
  pose proof Hi as Hi'.
  rewrite (iter_meeting_dates_nth _ _ _ _ days _ _ _ Hp Hit) in Hi'.
  destruct Hi' as [_ Hci].
  assert (Hd : c_date ci = start_date + Z.of_nat i) by (rewrite Hci; reflexivity).
  split; [|split; [rewrite Hd; exact Hci|]].
  - intros j cj Hij Hj.
    rewrite (iter_meeting_dates_nth _ _ _ _ days _ _ _ Hp Hit) in Hj.
    destruct Hj as [_ ->]. unfold classify. cbn [meets_today].
    rewrite (ended_before_mono specials start_date i j Hij);
      [apply andb_false_r|].
    rewrite <- Hd, Hend. reflexivity.
  - rewrite Hci. unfold classify. cbn [meets_today is_exception is_abnormal_meeting c_date].
    rewrite <- Hd, Hend. cbn [in_days andb].
    rewrite andb_true_r. split; [reflexivity|split; [reflexivity|]].
    apply andb_false_r.
Qed.

Lemma iter_meeting_dates_semester_end_witness :
  exists cs ci,
    iter_meeting_dates (ymd2ord 2024 12 12) (ymd2ord 2024 12 16) "MWF"
      [mkSpecialDate (ymd2ord 2024 12 13) "Study" EEnd] = Some cs /\
    nth_error cs 1 = Some ci /\
    (forall j cj, (1 < j)%nat -> nth_error cs j = Some cj -> meets_today cj = false) /\
    ci = classify [0; 2; 4] [mkSpecialDate (ymd2ord 2024 12 13) "Study" EEnd]
           (ended_before [mkSpecialDate (ymd2ord 2024 12 13) "Study" EEnd]
              (ymd2ord 2024 12 12) 1) (c_date ci) /\
    meets_today ci = false /\
    is_exception ci = in_days (EDay (weekday (c_date ci))) [0; 2; 4] /\
    is_abnormal_meeting ci = false.
Proof.
  eexists. eexists. split; [vm_compute; reflexivity|]. split; [vm_compute; reflexivity|].
  apply (iter_meeting_dates_semester_end (ymd2ord 2024 12 12) (ymd2ord 2024 12 16) "MWF"
           [mkSpecialDate (ymd2ord 2024 12 13) "Study" EEnd] [0; 2; 4]);
    [reflexivity | vm_compute; reflexivity | vm_compute; reflexivity
    | vm_compute; reflexivity].
Defined.

(** C2 (as stated, refuted): with two entries for Tuesday 2024-09-03, first
    "no class" and then "Monday schedule", the date is reported as
    duplicated, but the resolver follows the second entry: under pattern
    "M" the first entry would mean no meeting, yet the day is yielded as an
    (abnormal) meeting. *)
Lemma duplicate_date_counterexample :
  let specials := [mkSpecialDate (ymd2ord 2024 9 3) "Holiday" ENoClass;
                   mkSpecialDate (ymd2ord 2024 9 3) "Monday schedule" (EDay 0)] in
  duplicated_dates specials = [ymd2ord 2024 9 3] /\
  first_match (ymd2ord 2024 9 3) specials = Some ENoClass /\
  in_days ENoClass [0] = false /\
  iter_meeting_dates (ymd2ord 2024 9 3) (ymd2ord 2024 9 3) "M" specials
  = Some [mkClass (ymd2ord 2024 9 3) true false true].
Proof. vm_compute. repeat split. Qed.

(** C2 (amended): a date is listed in [duplicated_dates] (the load-time
    warning, which does not stop the script) exactly when at least two
    entries carry it, and the effective value the resolver uses for a date
    is the pattern of the LAST entry of the table dated so. *)
Theorem special_dates_last_entry_wins (specials : list SpecialDate) (d : Z) :
  (In d (duplicated_dates specials) <-> (1 < count_date (map sd_date specials) d)%nat) /\
  effective_at specials d
  = match last_match d specials with Some p => p | None => EDay (weekday d) end.
Proof.
  split.
  - unfold duplicated_dates. rewrite filter_In, first_occurrences_In.
    rewrite Nat.ltb_lt. split; [tauto|].
    intros H. split; [|exact H]. apply count_date_In. lia.
  - apply effective_of_last_match.
Qed.

(* ------------------------------------------------------------------ *)
(** ** Recurrence Compactor *)

(** C6: [last_meeting_date] is the date of the last tuple with
    [meets_today], and the exclusion dates are exactly the dates of the
    tuples with [is_exception] that are [<= last_meeting_date]; later
    exception dates are dropped. *)
Theorem compact_exclusion_dates (occurrences : list classification) (cp : compacted) :
  compact occurrences = Some cp ->
  (exists pre c, actual_occurrences occurrences = (pre ++ [c])%list /\
                 In c occurrences /\ meets_today c = true /\
                 c_date c = last_meeting_date cp) /\
  (forall d, In d (exclusion_dates cp) <->
     exists c, In c occurrences /\ c_date c = d /\ is_exception c = true /\
               d <= last_meeting_date cp).
Proof.
  unfold compact. destruct (actual_occurrences occurrences) as [|a r] eqn:Hact;
    [discriminate|].
  intros H. injection H as <-. cbn [last_meeting_date exclusion_dates]. split.
  - destruct (last_snoc (a :: r) a) as [pre Hpre]; [discriminate|].
    exists pre, (List.last (a :: r) a). split; [exact Hpre|].
    unfold actual_occurrences in Hact. rewrite Hpre in Hact.
    apply filter_app_in in Hact. tauto.
  - intros d. unfold exceptions_dates. rewrite in_map_iff. split.
    + intros [c [<- Hc]]. apply filter_In in Hc as [Hin Hf].
      apply andb_true_iff in Hf as [He Hle]. apply Z.leb_le in Hle. eauto.
    + intros [c [Hin [<- [He Hle]]]]. exists c. split; [reflexivity|].
      apply filter_In. split; [exact Hin|]. rewrite He. simpl. now apply Z.leb_le.
Qed.

Lemma compact_exclusion_dates_witness :
  exists cp,
    compact [mkClass 1 true false false; mkClass 2 false true false;
             mkClass 3 true false false; mkClass 4 false true false] = Some cp /\
    (exists pre c,
       actual_occurrences [mkClass 1 true false false; mkClass 2 false true false;
                           mkClass 3 true false false; mkClass 4 false true false]
       = (pre ++ [c])%list /\
       In c [mkClass 1 true false false; mkClass 2 false true false;
             mkClass 3 true false false; mkClass 4 false true false] /\
       meets_today c = true /\ c_date c = last_meeting_date cp) /\
    (forall d, In d (exclusion_dates cp) <->
       exists c, In c [mkClass 1 true false false; mkClass 2 false true false;
                       mkClass 3 true false false; mkClass 4 false true false] /\
                 c_date c = d /\ is_exception c = true /\ d <= last_meeting_date cp).
Proof.
  eexists. split; [reflexivity|].
  apply compact_exclusion_dates. reflexivity.
Defined.

(* ------------------------------------------------------------------ *)
(** ** [parse_time] *)

Lemma string_app_empty_r (s : string) : s ++ "" = s.
Proof. induction s as [|c s IH]; simpl; [reflexivity|]. now rewrite IH. Qed.

Lemma take_digits_app (h r : string) :
  all_digits h = true -> no_digit_head r -> take_digits (h ++ r) = (h, r).
Proof.
  intros Hh Hr. induction h as [|c h IH]; simpl in *.
  - destruct r as [|c r]; simpl in *; [reflexivity|]. now rewrite Hr.
  - apply andb_true_iff in Hh as [Hc Hh]. rewrite Hc, IH by exact Hh. reflexivity.
Qed.

Lemma take_digits_spec (s h r : string) :
  take_digits s = (h, r) -> s = h ++ r /\ all_digits h = true /\ no_digit_head r.
Proof.
  revert h r. induction s as [|c s IH]; intros h r H; simpl in H.
  - injection H as <- <-. repeat split.
  - destruct (is_digit c) eqn:Hc.
    + destruct (take_digits s) as [d r'] eqn:E. injection H as <- <-.
      destruct (IH d r' eq_refl) as [-> [Hd Hr]].
      split; [reflexivity|]. split; [unfold all_digits in *; cbn [list_ascii_of_string forallb]; now rewrite Hc, Hd | exact Hr].
    + injection H as <- <-. split; [reflexivity|]. split; [reflexivity|exact Hc].
Qed.

Lemma py_int_short (s : string) :
  (String.length s <= int_max_str_digits)%nat -> py_int s = inr (int_of_digits s).
Proof.
  intros H. unfold py_int.
  destruct (Nat.ltb_spec int_max_str_digits (String.length s)); [lia|reflexivity].
Qed.

Lemma py_int_long (s : string) :
  (int_max_str_digits < String.length s)%nat -> py_int s = inl ValueError.
Proof.
  intros H. unfold py_int.
  destruct (Nat.ltb_spec int_max_str_digits (String.length s)); [reflexivity|lia].
Qed.

(** Once the regular expression matches, [parse_time] is the two [int()]
    conversions and the 12-hour adjustment. *)
Lemma parse_time_prefix_gen (h m : string) (pm : bool) (rest : string) :
  h <> "" -> all_digits h = true -> m <> "" -> all_digits m = true ->
  parse_time (h ++ ":" ++ m ++ " " ++ meridian pm ++ rest)
  = match py_int h with
    | inl e => inl e
    | inr h0 =>
        match py_int m with
        | inl e => inl e
        | inr m0 =>
            let h1 := if h0 =? 12 then 0 else h0 in
            inr (mkTime (if pm then h1 + 12 else h1) m0)
        end
    end.
Proof.
  intros Hh Hhd Hm Hmd. unfold parse_time.
  rewrite take_digits_app by (exact Hhd || exact eq_refl).
  destruct h as [|ch h]; [congruence|]. cbn [Ascii.eqb Bool.eqb append].
  rewrite take_digits_app by (exact Hmd || exact eq_refl).
  destruct m as [|cm m]; [congruence|].
  destruct pm; cbn [meridian append Ascii.eqb Bool.eqb andb orb].
  - destruct (py_int (String ch h)); [reflexivity|].
    destruct (py_int (String cm m)); reflexivity.
  - destruct (py_int (String ch h)); [reflexivity|].
    destruct (py_int (String cm m)); reflexivity.
Qed.

Lemma parse_time_prefix (h m : string) (pm : bool) (rest : string) :
  h <> "" -> all_digits h = true -> m <> "" -> all_digits m = true ->
  (String.length h <= int_max_str_digits)%nat ->
  (String.length m <= int_max_str_digits)%nat ->
  parse_time (h ++ ":" ++ m ++ " " ++ meridian pm ++ rest)
  = inr (let h0 := int_of_digits h in
         let h1 := if h0 =? 12 then 0 else h0 in
         mkTime (if pm then h1 + 12 else h1) (int_of_digits m)).
Proof.
  intros Hh Hhd Hm Hmd Hlh Hlm.
  rewrite parse_time_prefix_gen, py_int_short, py_int_short by assumption.
  reflexivity.
Qed.

(** Without the prefix digits ':' digits ' ' ("AM" | "PM") the regular
    expression does not match. *)
Lemma parse_time_shape (x : string) :
  parse_time x = inl AttributeError \/
  exists h m pm rest,
    h <> "" /\ all_digits h = true /\ m <> "" /\ all_digits m = true /\
    x = h ++ ":" ++ m ++ " " ++ meridian pm ++ rest.
Proof.
  destruct (parse_time x) as [e|t] eqn:H;
    [destruct e; [| |left; reflexivity]|]; right; revert H;
  unfold parse_time; intros H;
  destruct (take_digits x) as [h r1] eqn:E1;
  destruct (take_digits_spec _ _ _ E1) as [-> [Hh _]];
  (destruct h as [|ch h]; [discriminate|]);
  (destruct r1 as [|colon r2]; [discriminate|]);
  (destruct (Ascii.eqb colon ":") eqn:Ec; [|discriminate]);
  apply Ascii.eqb_eq in Ec; subst colon;
  destruct (take_digits r2) as [m r3] eqn:E2;
  destruct (take_digits_spec _ _ _ E2) as [-> [Hm _]];
  (destruct m as [|cm m]; [discriminate|]);
  (destruct r3 as [|sp [|mer [|mM rest]]]; try discriminate);
  (destruct (Ascii.eqb sp " ") eqn:Hsp; [|discriminate]);
  (destruct (Ascii.eqb mM "M") eqn:HM; [|rewrite andb_false_r in H; discriminate]);
  apply Ascii.eqb_eq in Hsp, HM; subst sp mM;
  (destruct (Ascii.eqb mer "A") eqn:HA; [|destruct (Ascii.eqb mer "P") eqn:HP]);
    try discriminate.
  all: first [apply Ascii.eqb_eq in HA; subst mer; exists (String ch h), (String cm m), false, rest
             |apply Ascii.eqb_eq in HP; subst mer; exists (String ch h), (String cm m), true, rest];
       repeat split; auto; discriminate.
Qed.

Lemma parse_time_some_inv (x : string) (t : time) :
  parse_time x = inr t ->
  exists h m pm rest,
    h <> "" /\ all_digits h = true /\ m <> "" /\ all_digits m = true /\
    (String.length h <= int_max_str_digits)%nat /\
    (String.length m <= int_max_str_digits)%nat /\
    x = h ++ ":" ++ m ++ " " ++ meridian pm ++ rest.
Proof.
  intros H. destruct (parse_time_shape x) as [E|(h & m & pm & rest & Hh & Hhd & Hm & Hmd & Hx)];
    [congruence|].
  exists h, m, pm, rest. repeat split; auto.
  - destruct (Nat.le_gt_cases (String.length h) int_max_str_digits) as [L|L]; [exact L|].
    rewrite Hx, parse_time_prefix_gen, py_int_long in H by assumption. discriminate.
  - destruct (Nat.le_gt_cases (String.length m) int_max_str_digits) as [L|L]; [exact L|].
    rewrite Hx, parse_time_prefix_gen, (py_int_long m) in H by assumption.
    destruct (py_int h); discriminate.
Qed.

(** C7: a well-formed "H:MM AM|PM" string (both fields non-empty runs of
    digits, within CPython's limit on [int()] of 4300 digits) is mapped to
    [{hour, minute}] in 24-hour form, an hour literal of 12 being read as 0
    before the PM adjustment of +12; the four documented examples hold. *)
Theorem parse_time_well_formed (h m : string) (pm : bool) :
  h <> "" -> all_digits h = true -> m <> "" -> all_digits m = true ->
  (String.length h <= int_max_str_digits)%nat ->
  (String.length m <= int_max_str_digits)%nat ->
  parse_time (h ++ ":" ++ m ++ " " ++ meridian pm)
  = inr (let h0 := int_of_digits h in
         let h1 := if h0 =? 12 then 0 else h0 in
         mkTime (if pm then h1 + 12 else h1) (int_of_digits m)) /\
  parse_time "9:55 AM" = inr (mkTime 9 55) /\
  parse_time "12:15 PM" = inr (mkTime 12 15) /\
  parse_time "1:00 PM" = inr (mkTime 13 0) /\
  parse_time "12:05 AM" = inr (mkTime 0 5).
Proof.
  intros Hh Hhd Hm Hmd Hlh Hlm.
  split; [|repeat split].
  rewrite <- (string_app_empty_r (meridian pm)) at 1.
  now apply parse_time_prefix.
Qed.

Lemma parse_time_well_formed_witness :
  ("12" <> "" /\ all_digits "12" = true /\ "05" <> "" /\ all_digits "05" = true /\
   (String.length "12" <= int_max_str_digits)%nat /\
   (String.length "05" <= int_max_str_digits)%nat) /\
  parse_time ("12" ++ ":" ++ "05" ++ " " ++ meridian true)
  = inr (let h0 := int_of_digits "12" in
         let h1 := if h0 =? 12 then 0 else h0 in
         mkTime (if true then h1 + 12 else h1) (int_of_digits "05")) /\
  parse_time "9:55 AM" = inr (mkTime 9 55) /\
  parse_time "12:15 PM" = inr (mkTime 12 15) /\
  parse_time "1:00 PM" = inr (mkTime 13 0) /\
  parse_time "12:05 AM" = inr (mkTime 0 5).
Proof.
  split; [repeat split; (discriminate || reflexivity || (unfold int_max_str_digits; cbn; lia))|].
  apply (parse_time_well_formed "12" "05" true);
    (discriminate || reflexivity || (unfold int_max_str_digits; cbn; lia)).
Defined.

(** C10 (corrected): [parse_time] succeeds exactly on the strings that start
    with digits ':' digits ' ' ("AM" | "PM"), each run of digits at most 4300
    long, whatever follows and with no range check on the numbers. It raises
    [AttributeError] exactly when that prefix is absent, and [ValueError]
    exactly when the prefix is there but one of its runs of digits is longer
    than 4300 digits. *)
Theorem parse_time_prefix_only (x : string) (t : time) :
  (parse_time x = inr t <->
   exists h m pm rest,
     h <> "" /\ all_digits h = true /\ m <> "" /\ all_digits m = true /\
     (String.length h <= int_max_str_digits)%nat /\
     (String.length m <= int_max_str_digits)%nat /\
     x = h ++ ":" ++ m ++ " " ++ meridian pm ++ rest /\
     t = (let h0 := int_of_digits h in
          let h1 := if h0 =? 12 then 0 else h0 in
          mkTime (if pm then h1 + 12 else h1) (int_of_digits m))) /\
  (parse_time x = inl AttributeError <->
   ~ exists h m pm rest,
       h <> "" /\ all_digits h = true /\ m <> "" /\ all_digits m = true /\
       x = h ++ ":" ++ m ++ " " ++ meridian pm ++ rest) /\
  (parse_time x = inl ValueError <->
   exists h m pm rest,
     h <> "" /\ all_digits h = true /\ m <> "" /\ all_digits m = true /\
     x = h ++ ":" ++ m ++ " " ++ meridian pm ++ rest /\
     (int_max_str_digits < String.length h \/ int_max_str_digits < String.length m)%nat) /\
  parse_time "19:30 PM" = inr (mkTime 31 30) /\
  parse_time "9:55 AM extra" = inr (mkTime 9 55).
Proof.
  split; [|split; [|split; [|split; reflexivity]]].
  - split.
    + intros H. destruct (parse_time_some_inv _ _ H)
        as (h & m & pm & rest & Hh & Hhd & Hm & Hmd & Hlh & Hlm & Hx).
      exists h, m, pm, rest. repeat split; auto.
      rewrite Hx, parse_time_prefix in H by auto. now injection H.
    + intros (h & m & pm & rest & Hh & Hhd & Hm & Hmd & Hlh & Hlm & -> & ->).
      now apply parse_time_prefix.
  - split.
    + intros H (h & m & pm & rest & Hh & Hhd & Hm & Hmd & Hx).
      rewrite Hx, parse_time_prefix_gen in H by auto.
      unfold py_int in H.
      destruct (Nat.ltb int_max_str_digits (String.length h)); [discriminate|].
      destruct (Nat.ltb int_max_str_digits (String.length m)); discriminate.
    + intros Hn. destruct (parse_time_shape x) as [E|Hx]; [exact E|].
      contradiction.
  - split.
    + intros H. destruct (parse_time_shape x) as [E|(h & m & pm & rest & Hh & Hhd & Hm & Hmd & Hx)];
        [congruence|].
      exists h, m, pm, rest. repeat split; auto.
      destruct (Nat.le_gt_cases (String.length h) int_max_str_digits) as [Lh|Lh]; [|auto].
      destruct (Nat.le_gt_cases (String.length m) int_max_str_digits) as [Lm|Lm]; [|auto].
      rewrite Hx, parse_time_prefix in H by auto. discriminate.
    + intros (h & m & pm & rest & Hh & Hhd & Hm & Hmd & -> & [L|L]).
      * rewrite parse_time_prefix_gen, py_int_long by auto. reflexivity.
      * rewrite parse_time_prefix_gen, (py_int_long m) by auto.
        unfold py_int; destruct (Nat.ltb _ _); reflexivity.
Qed.

(** C10 as first stated does not hold: "1" * 4301 + ":00 AM" starts with the
    prefix, yet [int()] refuses the 4301-digit hour with [ValueError]. *)
Lemma parse_time_long_hour_counterexample :
  (str_mul 4301 "1" <> "" /\ all_digits (str_mul 4301 "1") = true /\
   "00" <> "" /\ all_digits "00" = true) /\
  parse_time (str_mul 4301 "1" ++ ":" ++ "00" ++ " " ++ meridian false ++ "")
  = inl ValueError.
Proof.
  split; [repeat split; (discriminate || reflexivity)|].
  reflexivity.
Qed.

(* ------------------------------------------------------------------ *)
(** ** Calendar Serializer *)

Lemma string_app_assoc (a b c : string) : (a ++ b) ++ c = a ++ (b ++ c).
Proof. induction a as [|x a IH]; simpl; [reflexivity|]. now rewrite IH. Qed.

Lemma has_nl_app (a b : string) : has_nl (a ++ b) = has_nl a || has_nl b.
Proof.
  induction a as [|x a IH]; [reflexivity|].
  unfold has_nl in *. cbn [append list_ascii_of_string existsb].
  rewrite IH. apply orb_assoc.
Qed.

Lemma split_nl_no_nl (a : string) : has_nl a = false -> split_nl a = [a].
Proof.
  induction a as [|x a IH]; intros H; [reflexivity|].
  unfold has_nl in H. cbn [list_ascii_of_string existsb] in H.
  apply orb_false_iff in H as [Hx Ha]. cbn [split_nl].
  rewrite IH by exact Ha. now rewrite Hx.
Qed.

Lemma split_nl_line (a b : string) :
  has_nl a = false -> split_nl (a ++ NL ++ b) = a :: split_nl b.
Proof.
  induction a as [|x a IH]; intros H; [reflexivity|].
  unfold has_nl in H. cbn [list_ascii_of_string existsb] in H.
  apply orb_false_iff in H as [Hx Ha]. cbn [split_nl append].
  change (a ++ String (ascii_of_nat 10) b) with (a ++ NL ++ b).
  rewrite IH by exact Ha. now rewrite Hx.
Qed.

Lemma split_nl_line2 (a b c : string) :
  has_nl a = false -> has_nl b = false ->
  split_nl (a ++ b ++ NL ++ c) = (a ++ b) :: split_nl c.
Proof.
  intros Ha Hb. rewrite <- string_app_assoc.
  apply split_nl_line. now rewrite has_nl_app, Ha, Hb.
Qed.

Lemma split_nl_join (ls : list string) (b : string) :
  ls <> [] -> Forall (fun l => has_nl l = false) ls ->
  split_nl (join NL ls ++ NL ++ b) = app ls (split_nl b).
Proof.
  induction ls as [|x [|y r] IH]; intros Hne Hall; [congruence| |].
  - inversion Hall. simpl join. now apply split_nl_line.
  - inversion Hall as [|? ? Hx Hr]. subst.
    change (join NL (x :: y :: r)) with (x ++ NL ++ join NL (y :: r)).
    rewrite !string_app_assoc, split_nl_line by exact Hx.
    rewrite IH by (discriminate || exact Hr). reflexivity.
Qed.

Lemma has_nl_join (sep : string) (ls : list string) :
  has_nl sep = false -> Forall (fun l => has_nl l = false) ls ->
  has_nl (join sep ls) = false.
Proof.
  intros Hs. induction ls as [|x [|y r] IH]; intros Hall; [reflexivity| |].
  - now inversion Hall.
  - inversion Hall as [|? ? Hx Hr]. subst.
    change (join sep (x :: y :: r)) with (x ++ sep ++ join sep (y :: r)).
    rewrite !has_nl_app, Hx, Hs, IH by exact Hr. reflexivity.
Qed.

Lemma digit_not_nl (n : N) : Ascii.eqb (ascii_of_N (48 + N.modulo n 10)) (ascii_of_nat 10) = false.
Proof.
  assert (H : (N.modulo n 10 < 10)%N) by (apply N.mod_lt; discriminate).
  destruct (N.modulo n 10) as [|p]; [reflexivity|].
  do 10 (destruct p as [p|p|]; try (exfalso; lia); try reflexivity).
Qed.

Lemma has_nl_dec_aux (fuel : nat) (n : N) (acc : string) :
  has_nl acc = false -> has_nl (dec_aux fuel n acc) = false.
Proof.
  revert n acc. induction fuel as [|f IH]; intros n acc H; [exact H|].
  cbn [dec_aux].
  assert (H' : has_nl (String (ascii_of_N (48 + N.modulo n 10)) acc) = false).
  { unfold has_nl in *. cbn [list_ascii_of_string existsb].
    now rewrite digit_not_nl, H. }
  destruct (N.ltb n 10); [exact H' | now apply IH].
Qed.

Lemma has_nl_zeros (k : nat) : has_nl (zeros k) = false.
Proof. induction k as [|k IH]; [reflexivity|]. exact IH. Qed.

Lemma has_nl_cons (c : ascii) (s : string) :
  has_nl (String c s) = Ascii.eqb c (ascii_of_nat 10) || has_nl s.
Proof. reflexivity. Qed.

Lemma has_nl_zpad_dec (w : nat) (n : N) : has_nl (zpad w (dec n)) = false.
Proof.
  unfold zpad. rewrite has_nl_app, has_nl_zeros. unfold dec.
  now rewrite has_nl_dec_aux.
Qed.

Lemma has_nl_fmt0d (w : nat) (n : Z) : has_nl (fmt0d w n) = false.
Proof.
  unfold fmt0d. destruct (n <? 0); [rewrite has_nl_cons|];
    rewrite has_nl_zpad_dec; reflexivity.
Qed.

Lemma has_nl_dec (n : N) : has_nl (dec n) = false.
Proof. unfold dec. now rewrite has_nl_dec_aux. Qed.

Lemma has_nl_ics_datetime (d : Z) (t : time) : has_nl (ics_datetime d t) = false.
Proof.
  unfold ics_datetime, ics_date. destruct (ord2ymd d) as [[y m] dd].
  rewrite !has_nl_app, has_nl_dec, !has_nl_fmt0d. reflexivity.
Qed.

Lemma has_nl_spec_wire_code (c : ascii) : has_nl (spec_wire_code c) = false.
Proof.
  unfold spec_wire_code.
  repeat match goal with |- context [if ?b then _ else _] => destruct b end;
    reflexivity.
Qed.

Lemma lookup_rrule_wire_code (cs : list ascii) :
  forallb is_weekday_letter cs = true ->
  map_opt (lookup_rrule date_to_rrule) cs = Some (map spec_wire_code cs).
Proof.
  induction cs as [|c cs IH]; intros H; [reflexivity|].
  cbn [forallb] in H. apply andb_true_iff in H as [Hc Hcs].
  cbn [map_opt map]. rewrite IH by exact Hcs.
  destruct c as [[] [] [] [] [] [] [] []]; try discriminate Hc; reflexivity.
Qed.

Lemma filter_exdate_lines (t : time) (ds : list Z) :
  filter (String.prefix "EXDATE")
    (map (fun d => "EXDATE;TZID=America/Detroit:" ++ ics_datetime d t) ds)
  = map (fun d => "EXDATE;TZID=America/Detroit:" ++ ics_datetime d t) ds.
Proof. induction ds as [|d ds IH]; [reflexivity|]. cbn [map filter]. rewrite IH. reflexivity. Qed.

(** C9: for a weekly section ([meeting_pattern] not [None], letters from
    MTWRFSU, text fields on one line each), the VEVENT text splits into the
    header lines, one weekly [RRULE] whose BYDAY maps the letters by
    M->MO, T->TU, W->WE, R->TH, F->FR, S->SA, U->SU and whose UNTIL is
    23:59 of [last_date], one [EXDATE;TZID=America/Detroit] line per
    excluded date at the start time (a blank line when there is none, which
    [write_ics] drops), and [END:VEVENT]; so exactly [length exceptions]
    lines start with "EXDATE". *)
Theorem recurring_event_weekly_rule (dtstamp uid summary location : string)
  (first_date last_date : Z) (start_time_p end_time_p : time) (pattern : string)
  (exceptions : list Z) :
  has_nl dtstamp = false -> has_nl uid = false ->
  has_nl summary = false -> has_nl location = false ->
  forallb is_weekday_letter (list_ascii_of_string pattern) = true ->
  exists s,
    recurring_event dtstamp uid first_date (Some last_date) summary location
      start_time_p end_time_p (Some pattern) exceptions = Some s /\
    split_nl s =
      app ["BEGIN:VEVENT"; "DTSTAMP:" ++ dtstamp; "SUMMARY:" ++ summary;
           "LOCATION:" ++ location;
           "DTSTART;TZID=America/Detroit:" ++ ics_datetime first_date start_time_p;
           "DTEND;TZID=America/Detroit:" ++ ics_datetime first_date end_time_p;
           "UID:" ++ uid;
           "RRULE:FREQ=WEEKLY;INTERVAL=1;BYDAY="
             ++ join "," (map spec_wire_code (list_ascii_of_string pattern))
             ++ ";UNTIL=" ++ ics_datetime last_date (mkTime 23 59) ++ "Z"]
        (app (match exceptions with
              | [] => [""]
              | _ => map (fun d => "EXDATE;TZID=America/Detroit:"
                                    ++ ics_datetime d start_time_p) exceptions
              end)
           ["END:VEVENT"; ""]) /\
    List.length (filter (String.prefix "EXDATE") (split_nl s)) = List.length exceptions.
Proof.
  intros Hst Hu Hs Hl Hp.
  unfold recurring_event. rewrite lookup_rrule_wire_code by exact Hp.
  eexists. split; [reflexivity|].
  assert (Hrr : has_nl ("RRULE:FREQ=WEEKLY;INTERVAL=1;BYDAY="
             ++ join "," (map spec_wire_code (list_ascii_of_string pattern))
             ++ ";UNTIL=" ++ ics_datetime last_date (mkTime 23 59) ++ "Z") = false).
  { rewrite !has_nl_app, has_nl_ics_datetime, has_nl_join; [reflexivity|reflexivity|].
    apply Forall_forall. intros x Hx. apply in_map_iff in Hx as [c [<- _]].
    apply has_nl_spec_wire_code. }
  assert (Hsplit : split_nl (vevent_text dtstamp uid summary location first_date
            start_time_p end_time_p
            ("RRULE:FREQ=WEEKLY;INTERVAL=1;BYDAY="
             ++ join "," (map spec_wire_code (list_ascii_of_string pattern))
             ++ ";UNTIL=" ++ ics_datetime last_date (mkTime 23 59) ++ "Z")
            (join NL (map (exdate_line start_time_p) exceptions))) =
      app ["BEGIN:VEVENT"; "DTSTAMP:" ++ dtstamp; "SUMMARY:" ++ summary;
           "LOCATION:" ++ location;
           "DTSTART;TZID=America/Detroit:" ++ ics_datetime first_date start_time_p;
           "DTEND;TZID=America/Detroit:" ++ ics_datetime first_date end_time_p;
           "UID:" ++ uid;
           "RRULE:FREQ=WEEKLY;INTERVAL=1;BYDAY="
             ++ join "," (map spec_wire_code (list_ascii_of_string pattern))
             ++ ";UNTIL=" ++ ics_datetime last_date (mkTime 23 59) ++ "Z"]
        (app (match exceptions with
              | [] => [""]
              | _ => map (fun d => "EXDATE;TZID=America/Detroit:"
                                    ++ ics_datetime d start_time_p) exceptions
              end)
           ["END:VEVENT"; ""])).
  { unfold vevent_text.
    rewrite split_nl_line by reflexivity.
    rewrite split_nl_line2 by (reflexivity || assumption).
    rewrite split_nl_line2 by (reflexivity || assumption).
    rewrite split_nl_line2 by (reflexivity || assumption).
    rewrite split_nl_line2 by (reflexivity || apply has_nl_ics_datetime).
    rewrite split_nl_line2 by (reflexivity || apply has_nl_ics_datetime).
    rewrite split_nl_line2 by (reflexivity || assumption).
    rewrite split_nl_line by exact Hrr.
    destruct exceptions as [|e es].
    - reflexivity.
    - rewrite split_nl_join.
      + reflexivity.
      + discriminate.
      + apply Forall_forall. intros x Hx. apply in_map_iff in Hx as [d [<- _]].
        unfold exdate_line. rewrite has_nl_app, has_nl_ics_datetime. reflexivity. }
  cbv zeta. rewrite Hsplit. split; [reflexivity|].
  destruct exceptions as [|e es]; [reflexivity|].
  rewrite !filter_app, filter_exdate_lines.
  simpl filter. rewrite app_nil_r. cbn [app]. apply length_map.
Qed.

Lemma recurring_event_weekly_rule_witness :
  (has_nl "20241019T120000Z" = false /\ has_nl "uid-1" = false /\
   has_nl "CS 101" = false /\ has_nl "SB 100" = false /\
   forallb is_weekday_letter (list_ascii_of_string "MWF") = true) /\
  exists s,
    recurring_event "20241019T120000Z" "uid-1" (ymd2ord 2024 9 2) (Some (ymd2ord 2024 12 13))
      "CS 101" "SB 100" (mkTime 9 0) (mkTime 9 50) (Some "MWF")
      [ymd2ord 2024 9 6; ymd2ord 2024 10 18] = Some s /\
    split_nl s =
      app ["BEGIN:VEVENT"; "DTSTAMP:" ++ "20241019T120000Z"; "SUMMARY:" ++ "CS 101";
           "LOCATION:" ++ "SB 100";
           "DTSTART;TZID=America/Detroit:" ++ ics_datetime (ymd2ord 2024 9 2) (mkTime 9 0);
           "DTEND;TZID=America/Detroit:" ++ ics_datetime (ymd2ord 2024 9 2) (mkTime 9 50);
           "UID:" ++ "uid-1";
           "RRULE:FREQ=WEEKLY;INTERVAL=1;BYDAY="
             ++ join "," (map spec_wire_code (list_ascii_of_string "MWF"))
             ++ ";UNTIL=" ++ ics_datetime (ymd2ord 2024 12 13) (mkTime 23 59) ++ "Z"]
        (app (match [ymd2ord 2024 9 6; ymd2ord 2024 10 18] with
              | [] => [""]
              | _ => map (fun d => "EXDATE;TZID=America/Detroit:"
                                    ++ ics_datetime d (mkTime 9 0))
                       [ymd2ord 2024 9 6; ymd2ord 2024 10 18]
              end)
           ["END:VEVENT"; ""]) /\
    List.length (filter (String.prefix "EXDATE") (split_nl s))
    = List.length [ymd2ord 2024 9 6; ymd2ord 2024 10 18].
Proof.
  split; [repeat split|].
  apply recurring_event_weekly_rule; reflexivity.
Defined.

(* ------------------------------------------------------------------ *)
(** ** Per-section error handling of the loop *)

(** C3 (code bug): a section whose pattern never meets in its range
    (pattern "M" on Tuesday 2024-09-03 only) makes [actual_occurrences[0]]
    raise [IndexError], which nothing catches: the whole run stops and the
    following, valid section is never converted. The sibling guard for a
    missing meeting time does skip with a warning and continue. *)
Lemma run_sections_no_meetings_aborts :
  let no_meetings := mkAcademicEvent "M" "CS 102" "SB 101" (Some "9:00 AM - 9:50 AM")
                       (ymd2ord 2024 9 3) (ymd2ord 2024 9 3) in
  let valid := mkAcademicEvent "MWF" "CS 101" "SB 100" (Some "9:00 AM - 9:50 AM")
                 (ymd2ord 2024 9 2) (ymd2ord 2024 9 13) in
  let no_time := mkAcademicEvent "MWF" "CS 104" "SB 100" None
                   (ymd2ord 2024 9 2) (ymd2ord 2024 9 13) in
  compact (match iter_meeting_dates (ymd2ord 2024 9 3) (ymd2ord 2024 9 3) "M" [] with
           | Some occ => occ | None => [] end) = None /\
  process_section [] no_meetings = SectionRaised IndexError /\
  run_sections [] [no_meetings; valid] [] [] = RunRaised IndexError /\
  exists evs, run_sections [] [no_time; valid] [] []
              = RunFinished ["Skipping CS 104 because no meeting times."] evs.
Proof. vm_compute. repeat split. eexists. reflexivity. Qed.

(** C8 (code bug): a section whose meeting time "9:00 - 9:50" lacks AM/PM
    makes [re.match] return [None] in [parse_time], and [.groups()] raises
    [AttributeError], which nothing catches: the whole run stops and the
    following, valid section is never converted. *)
Lemma run_sections_bad_time_aborts :
  let bad_time := mkAcademicEvent "M" "CS 103" "SB 101" (Some "9:00 - 9:50")
                    (ymd2ord 2024 9 2) (ymd2ord 2024 9 13) in
  let valid := mkAcademicEvent "MWF" "CS 101" "SB 100" (Some "9:00 AM - 9:50 AM")
                 (ymd2ord 2024 9 2) (ymd2ord 2024 9 13) in
  parse_time "9:00" = inl AttributeError /\
  process_section [] bad_time = SectionRaised AttributeError /\
  run_sections [] [bad_time; valid] [] [] = RunRaised AttributeError.
Proof. vm_compute. repeat split. Qed.

(* ------------------------------------------------------------------ *)
(** ** Further properties of the resolver *)

Lemma pattern_days_l_None (cs : list ascii) :
  pattern_days_l cs = None <-> exists c, In c cs /\ letter_to_day c = None.
Proof.
  induction cs as [|c cs IH]; simpl.
  - split; [discriminate|]. intros [? [[] _]].
  - destruct (letter_to_day c) eqn:Hc; destruct (pattern_days_l cs) eqn:Hr.
    + split; [discriminate|]. intros [x [[<-|Hx] Hn]]; [congruence|].
      pose proof (proj2 IH (ex_intro _ x (conj Hx Hn))). congruence.
    + split; [intros _|reflexivity]. destruct (proj1 IH eq_refl) as [x [Hx Hn]].
      exists x. auto.
    + split; [intros _|reflexivity]. exists c. auto.
    + split; [intros _|reflexivity]. exists c. auto.
Qed.

Lemma in_days_In (n : Z) (days : list Z) : in_days (EDay n) days = true <-> In n days.
Proof.
  unfold in_days. rewrite existsb_exists. split.
  - intros [x [Hx Heq]]. apply Z.eqb_eq in Heq. now subst.
  - intros H. exists n. split; [exact H|]. apply Z.eqb_refl.
Qed.

Lemma ended_before_true (specials : list SpecialDate) (start : Z) (n : nat) :
  ended_before specials start n = true <->
  exists k, (k < n)%nat /\ effective_at specials (start + Z.of_nat k) = EEnd.
Proof.
  induction n as [|n IH]; simpl.
  - split; [discriminate|]. intros [k [Hk _]]. lia.
  - rewrite orb_true_iff, IH. split.
    + intros [[k [Hk He]]|He]; [exists k; split; [lia|exact He]|].
      exists n. split; [lia|]. destruct (effective_at _ _); try discriminate; reflexivity.
    + intros [k [Hk He]]. destruct (Nat.eq_dec k n) as [->|Hne].
      * right. now rewrite He.
      * left. exists k. split; [lia|exact He].
Qed.

Lemma walk_fuel (specials : list SpecialDate) (days : list Z) (f f' : nat) :
  forall flag cur end_date,
  (Z.to_nat (end_date - cur + 1) <= f)%nat -> (Z.to_nat (end_date - cur + 1) <= f')%nat ->
  walk days specials f flag cur end_date = walk days specials f' flag cur end_date.
Proof.
  revert f'. induction f as [|f IH]; intros f' flag cur end_date H H'.
  - destruct f'; [reflexivity|]. simpl.
    destruct (cur <=? end_date) eqn:Hle; [apply Z.leb_le in Hle; lia|reflexivity].
  - destruct (cur <=? end_date) eqn:Hle.
    + pose proof Hle as Hle'. apply Z.leb_le in Hle'.
      destruct f' as [|f']; [lia|]. simpl. rewrite Hle.
      f_equal. apply IH; lia.
    + destruct f'; simpl; rewrite Hle; reflexivity.
Qed.

Lemma walk_split (specials : list SpecialDate) (days : list Z) (f : nat) :
  forall flag s m end_date,
  (Z.to_nat (end_date - s + 1) <= f)%nat -> s - 1 <= m <= end_date ->
  walk days specials f flag s end_date
  = app (walk days specials f flag s m)
        (walk days specials f (flag || ended_before specials s (Z.to_nat (m - s + 1)))
           (m + 1) end_date).
Proof.
  induction f as [|f IH]; intros flag s m end_date Hf Hm; [reflexivity|].
  destruct (Z.eq_dec m (s - 1)) as [->|Hne].
  - replace (s - 1 - s + 1) with 0 by lia. replace (s - 1 + 1) with s by lia.
    cbn [ended_before Z.to_nat]. rewrite orb_false_r.
    simpl walk at 2. replace (s <=? s - 1) with false by (symmetry; apply Z.leb_gt; lia).
    reflexivity.
  - rewrite (walk_fuel specials days (S f) f _ (m + 1) end_date) by lia.
    simpl walk. replace (s <=? end_date) with true by (symmetry; apply Z.leb_le; lia).
    replace (s <=? m) with true by (symmetry; apply Z.leb_le; lia).
    rewrite (IH _ (s + 1) m) by lia. cbn [app]. f_equal. f_equal.
    replace (Z.to_nat (m - s + 1)) with (S (Z.to_nat (m - (s + 1) + 1))) by lia.
    rewrite ended_before_shift, orb_assoc. reflexivity.
Qed.

(** The resolver raises [ValueError] exactly when the pattern holds a letter
    outside MTWRFSU, whatever the range; with a valid pattern and
    [end_date < start_date] it yields nothing. *)
Theorem iter_meeting_dates_invalid_or_empty (start_date end_date : Z)
  (pattern : string) (specials : list SpecialDate) :
  (iter_meeting_dates start_date end_date pattern specials = None <->
   exists c, In c (list_ascii_of_string pattern) /\ letter_to_day c = None) /\
  (end_date < start_date -> pattern_days pattern <> None ->
   iter_meeting_dates start_date end_date pattern specials = Some []).
Proof.
  unfold iter_meeting_dates, pattern_days. split.
  - rewrite <- pattern_days_l_None.
    destruct (pattern_days_l _); split; congruence.
  - intros Hlt Hp. destruct (pattern_days_l _); [|congruence].
    replace (Z.to_nat (end_date - start_date + 1)) with O by lia. reflexivity.
Qed.

(** Composition: when no day of [start_date .. m] is a semester end, the
    walk over [start_date .. end_date] is the walk over [start_date .. m]
    followed by the walk over [m + 1 .. end_date]. *)
Theorem iter_meeting_dates_split (start_date m end_date : Z) (pattern : string)
  (specials : list SpecialDate) :
  start_date - 1 <= m <= end_date ->
  (forall d, start_date <= d <= m -> effective_at specials d <> EEnd) ->
  iter_meeting_dates start_date end_date pattern specials
  = match iter_meeting_dates start_date m pattern specials,
          iter_meeting_dates (m + 1) end_date pattern specials with
    | Some a, Some b => Some (app a b)
    | _, _ => None
    end.
Proof.
  intros Hm Hno. unfold iter_meeting_dates.
  destruct (pattern_days pattern) as [days|]; [|reflexivity].
  f_equal. rewrite (walk_split _ _ _ false start_date m) by lia.
  replace (ended_before specials start_date (Z.to_nat (m - start_date + 1))) with false.
  - cbn [orb]. f_equal; apply walk_fuel; lia.
  - symmetry. apply not_true_iff_false. rewrite ended_before_true.
    intros [k [Hk He]]. apply (Hno (start_date + Z.of_nat k)); [lia|exact He].
Qed.

Lemma iter_meeting_dates_split_witness :
  ymd2ord 2024 9 2 - 1 <= ymd2ord 2024 9 8 <= ymd2ord 2024 9 20 /\
  iter_meeting_dates (ymd2ord 2024 9 2) (ymd2ord 2024 9 20) "MWF"
    [mkSpecialDate (ymd2ord 2024 9 6) "Holiday" ENoClass;
     mkSpecialDate (ymd2ord 2024 9 13) "Study" EEnd]
  = match iter_meeting_dates (ymd2ord 2024 9 2) (ymd2ord 2024 9 8) "MWF"
            [mkSpecialDate (ymd2ord 2024 9 6) "Holiday" ENoClass;
             mkSpecialDate (ymd2ord 2024 9 13) "Study" EEnd],
          iter_meeting_dates (ymd2ord 2024 9 8 + 1) (ymd2ord 2024 9 20) "MWF"
            [mkSpecialDate (ymd2ord 2024 9 6) "Holiday" ENoClass;
             mkSpecialDate (ymd2ord 2024 9 13) "Study" EEnd] with
    | Some a, Some b => Some (app a b)
    | _, _ => None
    end.
Proof.
  split; [vm_compute; split; discriminate|].
  apply iter_meeting_dates_split; [vm_compute; split; discriminate|].
  intros d Hd. unfold effective_at. cbn [effective_of sd_date sd_pattern].
  assert (E1 : ymd2ord 2024 9 2 = 739131) by reflexivity.
  assert (E2 : ymd2ord 2024 9 8 = 739137) by reflexivity.
  assert (E3 : ymd2ord 2024 9 13 = 739142) by reflexivity.
  rewrite E1, E2 in Hd. rewrite E3.
  replace (d =? 739142) with false by (symmetry; apply Z.eqb_neq; lia).
  destruct (d =? ymd2ord 2024 9 6); discriminate.
Defined.

(** Why a day is flagged: an abnormal meeting happens only on a date the
    table overrides (its last entry) with a weekday of the pattern while the
    true weekday is not in it; an exception is a pattern day whose last table
    entry names a value outside the pattern, or a day after a semester end
    of the same walk. *)
Theorem iter_meeting_dates_flag_causes (start_date end_date : Z) (pattern : string)
  (specials : list SpecialDate) (days : list Z) (cs : list classification)
  (c : classification) :
  pattern_days pattern = Some days ->
  iter_meeting_dates start_date end_date pattern specials = Some cs ->
  In c cs ->
  (is_abnormal_meeting c = true ->
   exists n, last_match (c_date c) specials = Some (EDay n) /\ In n days /\
             ~ In (weekday (c_date c)) days) /\
  (is_exception c = true ->
   In (weekday (c_date c)) days /\
   ((exists eff, last_match (c_date c) specials = Some eff /\ in_days eff days = false) \/
    (exists d, start_date <= d < c_date c /\ effective_at specials d = EEnd))).
Proof.
  intros Hp Hit Hin. apply In_nth_error in Hin as [i Hi].
  rewrite (iter_meeting_dates_nth _ _ _ _ days _ _ _ Hp Hit) in Hi.
  destruct Hi as [_ ->]. unfold classify.
  cbn [is_abnormal_meeting is_exception c_date].
  unfold effective_at. rewrite effective_of_last_match.
  destruct (in_days (EDay (weekday (start_date + Z.of_nat i))) days) eqn:Hn; split.
  - cbn [negb andb]. discriminate.
  - intros Hex. split; [now apply in_days_In|].
    destruct (last_match (start_date + Z.of_nat i) specials) as [eff|] eqn:Hl.
    + destruct (in_days eff days) eqn:He.
      * right. cbn [andb negb] in Hex.
        destruct (ended_before specials start_date i) eqn:Hb; [|discriminate].
        apply ended_before_true in Hb as [k [Hk Hend]].
        exists (start_date + Z.of_nat k). split; [lia|exact Hend].
      * left. now exists eff.
    + right. rewrite Hn in Hex. cbn [andb negb] in Hex.
      destruct (ended_before specials start_date i) eqn:Hb; [|discriminate].
      apply ended_before_true in Hb as [k [Hk Hend]].
      exists (start_date + Z.of_nat k). split; [lia|exact Hend].
  - intros Hab. cbn [negb andb] in Hab.
    destruct (last_match (start_date + Z.of_nat i) specials) as [eff|] eqn:Hl.
    + destruct eff as [n| |]; cbn [in_days] in Hab; try discriminate.
      exists n. split; [reflexivity|]. split.
      * apply in_days_In. unfold in_days. now destruct (existsb _ _).
      * rewrite <- in_days_In, Hn. discriminate.
    + rewrite Hn in Hab. discriminate.
  - cbn [negb andb]. discriminate.
Qed.

Lemma iter_meeting_dates_flag_causes_witness :
  pattern_days "MWF" = Some [0; 2; 4] /\
  iter_meeting_dates (ymd2ord 2024 9 6) (ymd2ord 2024 9 7) "MWF"
    [mkSpecialDate (ymd2ord 2024 9 6) "Holiday" ENoClass;
     mkSpecialDate (ymd2ord 2024 9 7) "Monday schedule" (EDay 0)]
  = Some [mkClass (ymd2ord 2024 9 6) false true false;
          mkClass (ymd2ord 2024 9 7) true false true] /\
  (is_abnormal_meeting (mkClass (ymd2ord 2024 9 7) true false true) = true ->
   exists n, last_match (ymd2ord 2024 9 7)
               [mkSpecialDate (ymd2ord 2024 9 6) "Holiday" ENoClass;
                mkSpecialDate (ymd2ord 2024 9 7) "Monday schedule" (EDay 0)]
             = Some (EDay n) /\ In n [0; 2; 4] /\ ~ In (weekday (ymd2ord 2024 9 7)) [0; 2; 4]) /\
  (is_exception (mkClass (ymd2ord 2024 9 7) true false true) = true ->
   In (weekday (ymd2ord 2024 9 7)) [0; 2; 4] /\
   ((exists eff, last_match (ymd2ord 2024 9 7)
                   [mkSpecialDate (ymd2ord 2024 9 6) "Holiday" ENoClass;
                    mkSpecialDate (ymd2ord 2024 9 7) "Monday schedule" (EDay 0)]
                 = Some eff /\ in_days eff [0; 2; 4] = false) \/
    (exists d, ymd2ord 2024 9 6 <= d < ymd2ord 2024 9 7 /\
               effective_at [mkSpecialDate (ymd2ord 2024 9 6) "Holiday" ENoClass;
                             mkSpecialDate (ymd2ord 2024 9 7) "Monday schedule" (EDay 0)] d
               = EEnd))).
Proof.
  split; [reflexivity|]. split; [vm_compute; reflexivity|].
  apply (iter_meeting_dates_flag_causes (ymd2ord 2024 9 6) (ymd2ord 2024 9 7) "MWF"
           [mkSpecialDate (ymd2ord 2024 9 6) "Holiday" ENoClass;
            mkSpecialDate (ymd2ord 2024 9 7) "Monday schedule" (EDay 0)]
           [0; 2; 4]
           [mkClass (ymd2ord 2024 9 6) false true false;
            mkClass (ymd2ord 2024 9 7) true false true]);
    [reflexivity | vm_compute; reflexivity | right; left; reflexivity].
Defined.

(* ------------------------------------------------------------------ *)
(** ** Further properties of the compactor and of the section loop *)

Lemma walk_bounds (days : list Z) (specials : list SpecialDate) (f : nat) :
  forall flag cur end_date,
  Forall (fun c => cur <= c_date c <= end_date) (walk days specials f flag cur end_date).
Proof.
  induction f as [|f IH]; intros flag cur end_date; cbn [walk]; [constructor|].
  destruct (cur <=? end_date) eqn:Hle; [|constructor].
  apply Z.leb_le in Hle. constructor; [unfold classify; cbn [c_date]; lia|].
  eapply Forall_impl; [|apply IH]. intros c Hc. cbn beta in Hc. lia.
Qed.

Lemma walk_sorted (days : list Z) (specials : list SpecialDate) (f : nat) :
  forall flag cur end_date,
  StronglySorted (fun a b => c_date a < c_date b) (walk days specials f flag cur end_date).
Proof.
  induction f as [|f IH]; intros flag cur end_date; cbn [walk]; [constructor|].
  destruct (cur <=? end_date); [|constructor].
  constructor; [apply IH|].
  eapply Forall_impl; [|apply walk_bounds]. intros c Hc. cbn beta in Hc.
  unfold classify; cbn [c_date]. lia.
Qed.

Lemma iter_shape (start_date end_date : Z) (pattern : string)
  (specials : list SpecialDate) (cs : list classification) :
  iter_meeting_dates start_date end_date pattern specials = Some cs ->
  StronglySorted (fun a b => c_date a < c_date b) cs /\
  Forall (fun c => start_date <= c_date c <= end_date) cs /\
  (forall c, In c cs -> is_exception c = true -> meets_today c = false) /\
  (forall c, In c cs -> is_abnormal_meeting c = true -> meets_today c = true).
Proof.
  unfold iter_meeting_dates. destruct (pattern_days pattern) as [days|]; [|discriminate].
  intros H. injection H as <-.
  split; [apply walk_sorted|]. split; [apply walk_bounds|].
  split; intros c Hin; destruct (walk_In _ _ _ _ _ _ _ Hin) as [ended Hc]; rewrite Hc;
    unfold classify; cbn [is_exception is_abnormal_meeting meets_today];
    destruct (in_days (EDay _) days), (in_days _ days && negb ended); cbn; congruence.
Qed.

Lemma SS_filter {A : Type} (R : A -> A -> Prop) (f : A -> bool) (l : list A) :
  StronglySorted R l -> StronglySorted R (filter f l).
Proof.
  induction l as [|a l IH]; intros H; cbn [filter]; [constructor|].
  apply StronglySorted_inv in H as [Hl Ha].
  destruct (f a); [|auto]. constructor; [auto|].
  rewrite Forall_forall in *. intros x Hx. apply filter_In in Hx as [Hx _]. auto.
Qed.

Lemma SS_map_date (l : list classification) :
  StronglySorted (fun a b => c_date a < c_date b) l -> StronglySorted Z.lt (map c_date l).
Proof.
  induction l as [|a l IH]; intros H; cbn [map]; [constructor|].
  apply StronglySorted_inv in H as [Hl Ha]. constructor; [auto|].
  apply Forall_map. exact Ha.
Qed.

Lemma SS_date_unique (l : list classification) (x y : classification) :
  StronglySorted (fun a b => c_date a < c_date b) l -> In x l -> In y l ->
  c_date x = c_date y -> x = y.
Proof.
  induction l as [|a l IH]; intros H Hx Hy Hxy; [contradiction|].
  apply StronglySorted_inv in H as [Hl Ha]. rewrite Forall_forall in Ha.
  destruct Hx as [<-|Hx]; destruct Hy as [<-|Hy]; auto.
  - specialize (Ha y Hy). lia.
  - specialize (Ha x Hx). lia.
Qed.

Lemma last_default {A : Type} (r : list A) : forall (a b : A),
  List.last (a :: r) b = List.last (a :: r) a.
Proof.
  induction r as [|c r IH]; intros a b; [reflexivity|].
  change (List.last (c :: r) b = List.last (c :: r) a).
  rewrite (IH c b). symmetry. apply IH.
Qed.

Lemma last_In_cons {A : Type} (r : list A) : forall (a : A), In (List.last (a :: r) a) (a :: r).
Proof.
  induction r as [|b r IH]; intros a; [now left|].
  change (In (List.last (b :: r) a) (a :: b :: r)).
  rewrite last_default. right. apply IH.
Qed.

Lemma SS_last_max (r : list classification) : forall (a x : classification),
  StronglySorted (fun a b => c_date a < c_date b) (a :: r) -> In x (a :: r) ->
  c_date x <= c_date (List.last (a :: r) a).
Proof.
  induction r as [|b r IH]; intros a x H Hx.
  - destruct Hx as [<-|[]]. apply Z.le_refl.
  - change (List.last (a :: b :: r) a) with (List.last (b :: r) a). rewrite last_default.
    apply StronglySorted_inv in H as [Hl Ha].
    destruct Hx as [<-|Hx].
    + rewrite Forall_forall in Ha. specialize (Ha b (or_introl eq_refl)).
      specialize (IH b b Hl (or_introl eq_refl)). lia.
    + apply IH; assumption.
Qed.

(** The dates [compact] reports for the output of [iter_meeting_dates]: the
    first and last meeting lie in the walked range, are meeting days, and
    bracket every meeting day. *)
Theorem compact_meeting_span (start_date end_date : Z) (pattern : string)
  (specials : list SpecialDate) (cs : list classification) (cp : compacted) :
  iter_meeting_dates start_date end_date pattern specials = Some cs ->
  compact cs = Some cp ->
  start_date <= first_meeting_date cp <= last_meeting_date cp /\
  last_meeting_date cp <= end_date /\
  (exists c, In c cs /\ meets_today c = true /\ c_date c = first_meeting_date cp) /\
  (exists c, In c cs /\ meets_today c = true /\ c_date c = last_meeting_date cp) /\
  (forall c, In c cs -> meets_today c = true ->
     first_meeting_date cp <= c_date c <= last_meeting_date cp).
Proof.
  intros Hit Hcp. destruct (iter_shape _ _ _ _ _ Hit) as (Hss & Hb & _ & _).
  rewrite Forall_forall in Hb.
  unfold compact, actual_occurrences in Hcp.
  destruct (filter meets_today cs) as [|a r] eqn:Ha; [discriminate|].
  cbv zeta in Hcp. injection Hcp as <-. cbn [first_meeting_date last_meeting_date].
  change (match r with [] => a | _ :: _ => List.last r a end) with (List.last (a :: r) a).
  assert (Hsub : forall x, In x (a :: r) -> In x cs /\ meets_today x = true)
    by (intros x Hx; rewrite <- Ha in Hx; now apply filter_In in Hx).
  assert (Hss' : StronglySorted (fun a b => c_date a < c_date b) (a :: r))
    by (rewrite <- Ha; now apply SS_filter).
  destruct (Hsub a (or_introl eq_refl)) as [HaIn HaM].
  destruct (Hsub _ (last_In_cons r a)) as [HlIn HlM].
  pose proof (Hb a HaIn). pose proof (Hb _ HlIn).
  pose proof (SS_last_max r a a Hss' (or_introl eq_refl)).
  split; [lia|]. split; [lia|]. split; [exists a; auto|].
  split; [exists (List.last (a :: r) a); auto|].
  intros c Hc Hm.
  assert (Hcin : In c (a :: r)) by (rewrite <- Ha; now apply filter_In).
  split.
  - destruct Hcin as [<-|Hcin]; [lia|]. apply StronglySorted_inv in Hss' as [_ Hfa].
    rewrite Forall_forall in Hfa. specialize (Hfa c Hcin). lia.
  - now apply SS_last_max.
Qed.

Lemma compact_meeting_span_witness :
  exists cs cp,
    iter_meeting_dates 1 12 "MWF"
      [mkSpecialDate 5 "Holiday" ENoClass; mkSpecialDate 6 "Make-up day" (EDay 0)]
    = Some cs /\
    compact cs = Some cp /\
    1 <= first_meeting_date cp <= last_meeting_date cp /\
    last_meeting_date cp <= 12 /\
    (exists c, In c cs /\ meets_today c = true /\ c_date c = first_meeting_date cp) /\
    (exists c, In c cs /\ meets_today c = true /\ c_date c = last_meeting_date cp) /\
    (forall c, In c cs -> meets_today c = true ->
       first_meeting_date cp <= c_date c <= last_meeting_date cp).
Proof.
  eexists. eexists. split; [reflexivity|]. split; [reflexivity|].
  apply (compact_meeting_span 1 12 "MWF"
           [mkSpecialDate 5 "Holiday" ENoClass; mkSpecialDate 6 "Make-up day" (EDay 0)]);
    reflexivity.
Defined.

(** The exclusion dates [compact] reports are increasing, lie between the
    start of the walk and the last meeting, and are never a meeting day; the
    abnormal-meeting dates are increasing meeting days. *)
Theorem compact_exclusions_abnormal (start_date end_date : Z) (pattern : string)
  (specials : list SpecialDate) (cs : list classification) (cp : compacted) :
  iter_meeting_dates start_date end_date pattern specials = Some cs ->
  compact cs = Some cp ->
  StronglySorted Z.lt (exclusion_dates cp) /\
  (forall d, In d (exclusion_dates cp) ->
     start_date <= d <= last_meeting_date cp /\
     forall c, In c cs -> c_date c = d -> meets_today c = false) /\
  StronglySorted Z.lt (abnormal_meeting_dates cp) /\
  (forall d, In d (abnormal_meeting_dates cp) ->
     exists c, In c cs /\ c_date c = d /\ meets_today c = true).
Proof.
  intros Hit Hcp. destruct (iter_shape _ _ _ _ _ Hit) as (Hss & Hb & Hex & Hab).
  rewrite Forall_forall in Hb.
  unfold compact, actual_occurrences in Hcp.
  destruct (filter meets_today cs) as [|a r] eqn:Ha; [discriminate|].
  cbv zeta in Hcp. injection Hcp as <-.
  cbn [exclusion_dates abnormal_meeting_dates last_meeting_date].
  unfold exceptions_dates, abnormal_dates.
  split; [apply SS_map_date, SS_filter, Hss|].
  split.
  - intros d Hd. apply in_map_iff in Hd as [c [<- Hc]].
    apply filter_In in Hc as [Hc Hf]. apply andb_true_iff in Hf as [He Hl].
    apply Z.leb_le in Hl. split; [specialize (Hb c Hc); lia|].
    intros c' Hc' Heq. rewrite (SS_date_unique cs c' c Hss Hc' Hc Heq). auto.
  - split; [apply SS_map_date, SS_filter, Hss|].
    intros d Hd. apply in_map_iff in Hd as [c [<- Hc]].
    apply filter_In in Hc as [Hc Hf]. exists c. auto.
Qed.

Lemma compact_exclusions_abnormal_witness :
  exists cs cp,
    iter_meeting_dates 1 12 "MWF"
      [mkSpecialDate 5 "Holiday" ENoClass; mkSpecialDate 6 "Make-up day" (EDay 0)]
    = Some cs /\
    compact cs = Some cp /\
    exclusion_dates cp = [5] /\ abnormal_meeting_dates cp = [6] /\
    StronglySorted Z.lt (exclusion_dates cp) /\
    (forall d, In d (exclusion_dates cp) ->
       1 <= d <= last_meeting_date cp /\
       forall c, In c cs -> c_date c = d -> meets_today c = false) /\
    StronglySorted Z.lt (abnormal_meeting_dates cp) /\
    (forall d, In d (abnormal_meeting_dates cp) ->
       exists c, In c cs /\ c_date c = d /\ meets_today c = true).
Proof.
  eexists. eexists. split; [reflexivity|]. split; [reflexivity|].
  split; [reflexivity|]. split; [reflexivity|].
  apply (compact_exclusions_abnormal 1 12 "MWF"
           [mkSpecialDate 5 "Holiday" ENoClass; mkSpecialDate 6 "Make-up day" (EDay 0)]);
    reflexivity.
Defined.

Lemma pattern_days_l_weekday (cs : list ascii) (days : list Z) :
  pattern_days_l cs = Some days -> forallb is_weekday_letter cs = true.
Proof.
  revert days. induction cs as [|c cs IH]; intros days H; [reflexivity|].
  cbn [pattern_days_l] in H. cbn [forallb]. unfold is_weekday_letter at 1.
  destruct (letter_to_day c); [|discriminate].
  destruct (pattern_days_l cs) as [l|] eqn:E; [|discriminate].
  exact (IH l eq_refl).
Qed.

Lemma process_section_events_inv (special_dates : list SpecialDate) (ae : AcademicEvent)
  (evs : list RecurringEventArgs) :
  process_section special_dates ae = SectionEvents evs ->
  exists meeting_time start_time end_time start_time_p end_time_p days occurrences cp,
    ae_meeting_time ae = Some meeting_time /\
    split_sep " - " meeting_time = [start_time; end_time] /\
    parse_time start_time = inr start_time_p /\
    parse_time end_time = inr end_time_p /\
    pattern_days (ae_pattern ae) = Some days /\
    iter_meeting_dates (ae_start_date ae) (ae_end_date ae) (ae_pattern ae) special_dates
      = Some occurrences /\
    compact occurrences = Some cp /\
    evs = mkRecurringEventArgs (first_meeting_date cp) (Some (last_meeting_date cp))
            (ae_name ae) (ae_location ae) start_time_p end_time_p
            (Some (ae_pattern ae)) (exclusion_dates cp)
          :: map (fun d => mkRecurringEventArgs d None (ae_name ae) (ae_location ae)
                             start_time_p end_time_p None [])
                 (abnormal_meeting_dates cp).
Proof.
  unfold process_section. intros H.
  destruct (ae_meeting_time ae) as [mt|] eqn:Hmt; [|discriminate].
  destruct (split_sep " - " mt) as [|st [|et [|x l]]] eqn:Hsp; try discriminate.
  destruct (parse_time st) as [e|stp] eqn:Hst; [discriminate|].
  destruct (parse_time et) as [e|etp] eqn:Het; [discriminate|].
  destruct (iter_meeting_dates _ _ _ _) as [occ|] eqn:Hit; [|discriminate].
  destruct (compact occ) as [cp|] eqn:Hcp; [|discriminate].
  injection H as <-.
  assert (Hp : exists days, pattern_days (ae_pattern ae) = Some days)
    by (unfold iter_meeting_dates in Hit; destruct (pattern_days _); [eauto|discriminate]).
  destruct Hp as [days Hp].
  exists mt, st, et, stp, etp, days, occ, cp. repeat split; auto.
Qed.

Lemma compact_fields (occurrences : list classification) (cp : compacted) :
  compact occurrences = Some cp ->
  exclusion_dates cp = exceptions_dates occurrences (last_meeting_date cp) /\
  abnormal_meeting_dates cp = abnormal_dates occurrences.
Proof.
  unfold compact. destruct (actual_occurrences occurrences) as [|a r]; [discriminate|].
  intros H. injection H as <-. split; reflexivity.
Qed.

Lemma process_section_events_render (special_dates : list SpecialDate)
  (ae : AcademicEvent) (evs : list RecurringEventArgs) (dtstamp uid : string) :
  process_section special_dates ae = SectionEvents evs ->
  Forall (fun ev => exists text,
            recurring_event dtstamp uid (re_first_date ev) (re_last_date ev) (re_summary ev)
              (re_location ev) (re_start_time_p ev) (re_end_time_p ev)
              (re_meeting_pattern ev) (re_exceptions ev) = Some text) evs.
Proof.
  intros H.
  destruct (process_section_events_inv _ _ _ H)
    as (mt & st & et & stp & etp & days & occ & cp & _ & _ & _ & _ & Hp & _ & _ & ->).
  constructor.
  - cbn [re_first_date re_last_date re_summary re_location re_start_time_p
         re_end_time_p re_meeting_pattern re_exceptions].
    unfold recurring_event.
    rewrite (lookup_rrule_wire_code _ (pattern_days_l_weekday _ _ Hp)).
    eexists; reflexivity.
  - apply Forall_map. apply Forall_forall. intros d _. eexists; reflexivity.
Qed.

Lemma process_section_skipped (special_dates : list SpecialDate) (ae : AcademicEvent)
  (w : string) :
  process_section special_dates ae = SectionSkipped w ->
  ae_meeting_time ae = None /\
  w = "Skipping " ++ ae_name ae ++ " because no meeting times.".
Proof.
  unfold process_section.
  destruct (ae_meeting_time ae) as [mt|]; [|intros H; injection H as <-; auto].
  destruct (split_sep " - " mt) as [|st [|et [|x l]]]; try discriminate.
  destruct (parse_time st); [discriminate|]. destruct (parse_time et); [discriminate|].
  destruct (iter_meeting_dates _ _ _ _); [|discriminate].
  destruct (compact _); discriminate.
Qed.

(** What one section with meeting times adds, when nothing raises: first the
    weekly event from the first to the last meeting, with the section's
    pattern, the two times parsed from the halves of its meeting time, and as
    exclusions the exception dates up to the last meeting; then, for each
    abnormal meeting in date order, a single event on that date with no
    pattern, no last date and no exclusions. All carry the section's name and
    location, and [recurring_event] renders each without raising. *)
Theorem process_section_events (special_dates : list SpecialDate) (ae : AcademicEvent)
  (evs : list RecurringEventArgs) (dtstamp uid : string) :
  process_section special_dates ae = SectionEvents evs ->
  exists meeting_time start_time end_time start_time_p end_time_p occurrences cp,
    ae_meeting_time ae = Some meeting_time /\
    split_sep " - " meeting_time = [start_time; end_time] /\
    parse_time start_time = inr start_time_p /\
    parse_time end_time = inr end_time_p /\
    iter_meeting_dates (ae_start_date ae) (ae_end_date ae) (ae_pattern ae) special_dates
      = Some occurrences /\
    compact occurrences = Some cp /\
    exclusion_dates cp
      = map c_date (filter (fun c => is_exception c && (c_date c <=? last_meeting_date cp))
                      occurrences) /\
    abnormal_meeting_dates cp = map c_date (filter is_abnormal_meeting occurrences) /\
    evs = mkRecurringEventArgs (first_meeting_date cp) (Some (last_meeting_date cp))
            (ae_name ae) (ae_location ae) start_time_p end_time_p
            (Some (ae_pattern ae)) (exclusion_dates cp)
          :: map (fun d => mkRecurringEventArgs d None (ae_name ae) (ae_location ae)
                             start_time_p end_time_p None [])
                 (abnormal_meeting_dates cp) /\
    Forall (fun ev => exists text,
              recurring_event dtstamp uid (re_first_date ev) (re_last_date ev)
                (re_summary ev) (re_location ev) (re_start_time_p ev) (re_end_time_p ev)
                (re_meeting_pattern ev) (re_exceptions ev) = Some text) evs.
Proof.
  intros H. pose proof (process_section_events_render _ _ _ dtstamp uid H) as Hr.
  destruct (process_section_events_inv _ _ _ H)
    as (mt & st & et & stp & etp & days & occ & cp & Hmt & Hsp & Hst & Het & _ & Hit & Hcp & Hev).
  destruct (compact_fields _ _ Hcp) as [Hx Ha].
  exists mt, st, et, stp, etp, occ, cp. repeat split; auto.
Qed.

Lemma process_section_events_witness :
  exists evs,
    process_section [mkSpecialDate 5 "Holiday" ENoClass; mkSpecialDate 6 "Make-up day" (EDay 0)]
      (mkAcademicEvent "MWF" "CS 106" "SB 372" (Some "9:00 AM - 9:50 AM") 1 12)
    = SectionEvents evs /\
  exists meeting_time start_time end_time start_time_p end_time_p occurrences cp,
    ae_meeting_time (mkAcademicEvent "MWF" "CS 106" "SB 372" (Some "9:00 AM - 9:50 AM") 1 12) = Some meeting_time /\
    split_sep " - " meeting_time = [start_time; end_time] /\
    parse_time start_time = inr start_time_p /\
    parse_time end_time = inr end_time_p /\
    iter_meeting_dates (ae_start_date (mkAcademicEvent "MWF" "CS 106" "SB 372" (Some "9:00 AM - 9:50 AM") 1 12)) (ae_end_date (mkAcademicEvent "MWF" "CS 106" "SB 372" (Some "9:00 AM - 9:50 AM") 1 12)) "MWF" [mkSpecialDate 5 "Holiday" ENoClass; mkSpecialDate 6 "Make-up day" (EDay 0)]
      = Some occurrences /\
    compact occurrences = Some cp /\
    exclusion_dates cp
      = map c_date (filter (fun c => is_exception c && (c_date c <=? last_meeting_date cp))
                      occurrences) /\
    abnormal_meeting_dates cp = map c_date (filter is_abnormal_meeting occurrences) /\
    evs = mkRecurringEventArgs (first_meeting_date cp) (Some (last_meeting_date cp))
            "CS 106" "SB 372" start_time_p end_time_p
            (Some "MWF") (exclusion_dates cp)
          :: map (fun d => mkRecurringEventArgs d None "CS 106" "SB 372"
                             start_time_p end_time_p None [])
                 (abnormal_meeting_dates cp) /\
    Forall (fun ev => exists text,
              recurring_event "20240101T000000Z" "uid-1" (re_first_date ev) (re_last_date ev)
                (re_summary ev) (re_location ev) (re_start_time_p ev) (re_end_time_p ev)
                (re_meeting_pattern ev) (re_exceptions ev) = Some text) evs.
Proof.
  eexists. split; [vm_compute; reflexivity|].
  apply (process_section_events
           [mkSpecialDate 5 "Holiday" ENoClass; mkSpecialDate 6 "Make-up day" (EDay 0)]
           (mkAcademicEvent "MWF" "CS 106" "SB 372" (Some "9:00 AM - 9:50 AM") 1 12)).
  vm_compute. reflexivity.
Defined.

(** When the loop finishes, its warnings are the initial ones followed by
    one "Skipping <name> because no meeting times." per section without a
    meeting time, in order; the events it collected extend the initial ones
    by at least one event per section with a meeting time, and every added
    event is rendered by [recurring_event] without raising. *)
Theorem run_sections_finished (special_dates : list SpecialDate)
  (aes : list AcademicEvent) (warnings : list string)
  (recurring_events : list RecurringEventArgs) (warnings' : list string)
  (recurring_events' : list RecurringEventArgs) (dtstamp uid : string) :
  run_sections special_dates aes warnings recurring_events
  = RunFinished warnings' recurring_events' ->
  warnings' = app warnings
    (map (fun ae => "Skipping " ++ ae_name ae ++ " because no meeting times.")
       (filter (fun ae => match ae_meeting_time ae with None => true | Some _ => false end)
          aes)) /\
  exists added,
    recurring_events' = app recurring_events added /\
    (List.length (filter (fun ae => match ae_meeting_time ae with
                                    | None => false | Some _ => true end) aes)
     <= List.length added)%nat /\
    Forall (fun ev => exists text,
              recurring_event dtstamp uid (re_first_date ev) (re_last_date ev)
                (re_summary ev) (re_location ev) (re_start_time_p ev) (re_end_time_p ev)
                (re_meeting_pattern ev) (re_exceptions ev) = Some text) added.
Proof.
  revert warnings recurring_events.
  induction aes as [|ae aes IH]; intros w r H; cbn [run_sections] in H.
  - injection H as <- <-. split; [now rewrite app_nil_r|].
    exists []. split; [now rewrite app_nil_r|]. split; [cbn; lia|constructor].
  - destruct (process_section special_dates ae) as [w0|e|evs] eqn:Hp; [| discriminate |].
    + destruct (process_section_skipped _ _ _ Hp) as [Hn ->].
      destruct (IH _ _ H) as [Hw [added [Hr [Hl Hf]]]].
      cbn [filter]. rewrite Hn. cbn [map]. split; [now rewrite Hw, <- app_assoc|].
      exists added. auto.
    + destruct (IH _ _ H) as [Hw [added [Hr [Hl Hf]]]].
      destruct (process_section_events_inv _ _ _ Hp)
        as (mt & st & et & stp & etp & days & occ & cp & Hmt & _ & _ & _ & _ & _ & _ & Hev).
      cbn [filter]. rewrite Hmt. split; [exact Hw|].
      exists (app evs added). split; [now rewrite Hr, app_assoc|]. split.
      * rewrite length_app, Hev. cbn [List.length]. lia.
      * apply Forall_app. split; [|exact Hf].
        exact (process_section_events_render _ _ _ _ _ Hp).
Qed.

Lemma run_sections_finished_witness :
  exists w r,
    run_sections [mkSpecialDate 5 "Holiday" ENoClass]
      [mkAcademicEvent "MWF" "CS 106" "SB 372" (Some "9:00 AM - 9:50 AM") 1 12;
       mkAcademicEvent "TR" "CS 108" "SB 010" None 1 12] [] []
    = RunFinished w r /\
    w = app [] (map (fun ae => "Skipping " ++ ae_name ae ++ " because no meeting times.")
                  (filter (fun ae => match ae_meeting_time ae with
                                     | None => true | Some _ => false end)
                     [mkAcademicEvent "MWF" "CS 106" "SB 372" (Some "9:00 AM - 9:50 AM") 1 12;
                      mkAcademicEvent "TR" "CS 108" "SB 010" None 1 12])) /\
    exists added,
      r = app [] added /\
      (List.length (filter (fun ae => match ae_meeting_time ae with
                                      | None => false | Some _ => true end)
                     [mkAcademicEvent "MWF" "CS 106" "SB 372" (Some "9:00 AM - 9:50 AM") 1 12;
                      mkAcademicEvent "TR" "CS 108" "SB 010" None 1 12])
       <= List.length added)%nat /\
      Forall (fun ev => exists text,
                recurring_event "20240101T000000Z" "uid-1" (re_first_date ev) (re_last_date ev)
                  (re_summary ev) (re_location ev) (re_start_time_p ev) (re_end_time_p ev)
                  (re_meeting_pattern ev) (re_exceptions ev) = Some text) added.
Proof.
  eexists. eexists. split; [vm_compute; reflexivity|].
  apply (run_sections_finished [mkSpecialDate 5 "Holiday" ENoClass]
           [mkAcademicEvent "MWF" "CS 106" "SB 372" (Some "9:00 AM - 9:50 AM") 1 12;
            mkAcademicEvent "TR" "CS 108" "SB 010" None 1 12] [] []).
  vm_compute. reflexivity.
Defined.

(* ------------------------------------------------------------------ *)
(** ** Weekday letters, special dates and their duplicates *)

(** [letter_to_day] (Monday = 0) and [date_to_rrule] agree: a character is
    a key of [date_to_rrule] exactly when [letter_to_day] accepts it, and
    its BYDAY code is the one of the weekday [letter_to_day] gives it. *)
Theorem letter_to_day_date_to_rrule (c : ascii) :
  lookup_rrule date_to_rrule c
  = match letter_to_day c with
    | Some n => Some (nth (Z.to_nat n) ["MO"; "TU"; "WE"; "TH"; "FR"; "SA"; "SU"] "")
    | None => None
    end.
Proof. destruct c as [[] [] [] [] [] [] [] []]; reflexivity. Qed.

Lemma letter_to_day_range (c : ascii) (n : Z) : letter_to_day c = Some n -> 0 <= n <= 6.
Proof.
  destruct c as [[] [] [] [] [] [] [] []]; cbn; intros H; try discriminate;
    injection H as <-; lia.
Qed.

(** [SpecialDate] accepts a pattern exactly when it is one weekday letter
    (stored as its index, 0 to 6), the string "END_OF_SEMESTER", or the empty
    string; anything else raises [ValueError]. *)
Theorem special_pattern_accepts (p : string) (e : effect) :
  special_pattern p = Some e <->
  (exists c n, p = String c "" /\ letter_to_day c = Some n /\ e = EDay n /\ 0 <= n <= 6) \/
  (p = "END_OF_SEMESTER" /\ e = EEnd) \/
  (p = "" /\ e = ENoClass).
Proof.
  split.
  - destruct p as [|c [|c' p']]; cbn [special_pattern].
    + intros H. injection H as <-. auto.
    + destruct (letter_to_day c) as [n|] eqn:Hc; cbn; [|discriminate].
      intros H. injection H as <-. left. exists c, n.
      repeat split; auto; apply (letter_to_day_range c n Hc).
    + destruct (String.eqb _ "END_OF_SEMESTER") eqn:Heq; [|discriminate].
      apply String.eqb_eq in Heq. intros H. injection H as <-. auto.
  - intros [(c & n & -> & Hc & -> & _)|[[-> ->]|[-> ->]]]; [|reflexivity|reflexivity].
    cbn [special_pattern]. now rewrite Hc.
Qed.

Lemma first_occurrences_NoDup (ds : list Z) : NoDup (first_occurrences ds).
Proof.
  induction ds as [|d r IH]; cbn [first_occurrences]; constructor.
  - rewrite filter_In, negb_true_iff, Z.eqb_refl. intros [_ H]. discriminate.
  - now apply NoDup_filter.
Qed.

(** [duplicated_dates] lists each date that occurs more than once in the
    special-date table, and lists it once. *)
Theorem duplicated_dates_spec (specials : list SpecialDate) :
  NoDup (duplicated_dates specials) /\
  forall d, In d (duplicated_dates specials) <->
            (1 < count_date (map sd_date specials) d)%nat.
Proof.
  unfold duplicated_dates. split.
  - apply NoDup_filter, first_occurrences_NoDup.
  - intros d. rewrite filter_In, first_occurrences_In, Nat.ltb_lt.
    split; [tauto|]. intros H. split; [|exact H]. apply count_date_In. lia.
Qed.

(* ------------------------------------------------------------------ *)
(** ** [parse_time] on the 12-hour clock *)

Lemma int_of_digits_acc_ge (s : string) : forall acc,
  all_digits s = true -> 0 <= acc -> acc <= int_of_digits_acc acc s.
Proof.
  induction s as [|c s IH]; intros acc Hd Hacc; [cbn; lia|].
  unfold all_digits in Hd. cbn [list_ascii_of_string forallb] in Hd.
  apply andb_true_iff in Hd as [Hc Hs].
  unfold is_digit in Hc. apply andb_true_iff in Hc as [Hc1 _].
  apply Nat.leb_le in Hc1. cbn [int_of_digits_acc].
  assert (acc <= acc * 10 + (Z.of_nat (nat_of_ascii c) - 48)) by lia.
  specialize (IH (acc * 10 + (Z.of_nat (nat_of_ascii c) - 48)) Hs ltac:(lia)). lia.
Qed.

(** What [parse_time] returns: the minute is the minute literal, both fields
    are non-negative, and when the hour literal is on the 12-hour clock
    (1 to 12) the hour is a 24-hour hour (0 to 23), in the afternoon half
    exactly for "PM", and equal to the literal modulo 12. *)
Theorem parse_time_clock (x : string) (t : time) :
  parse_time x = inr t ->
  exists h m pm rest,
    x = h ++ ":" ++ m ++ " " ++ meridian pm ++ rest /\
    all_digits h = true /\ all_digits m = true /\
    minute t = int_of_digits m /\ 0 <= minute t /\ 0 <= hour t /\
    (1 <= int_of_digits h <= 12 ->
     hour t <= 23 /\ (12 <= hour t <-> pm = true) /\
     hour t mod 12 = int_of_digits h mod 12).
Proof.
  intros H.
  destruct (parse_time_some_inv x t H)
    as (h & m & pm & rest & Hh & Hhd & Hm & Hmd & Hlh & Hlm & Hx).
  rewrite Hx, parse_time_prefix in H by assumption. injection H as <-.
  exists h, m, pm, rest. cbn [hour minute].
  pose proof (int_of_digits_acc_ge h 0 Hhd ltac:(lia)) as H0.
  pose proof (int_of_digits_acc_ge m 0 Hmd ltac:(lia)) as H1.
  change (int_of_digits_acc 0 h) with (int_of_digits h) in H0.
  change (int_of_digits_acc 0 m) with (int_of_digits m) in H1.
  set (h0 := int_of_digits h) in *.
  split; [exact Hx|]. split; [exact Hhd|]. split; [exact Hmd|].
  split; [reflexivity|]. split; [exact H1|].
  split; [destruct (h0 =? 12), pm; lia|].
  intros Hr. destruct (Z.eqb_spec h0 12) as [E|E], pm.
  - split; [lia|]. split; [split; intros; [reflexivity|lia]|]. rewrite E. reflexivity.
  - split; [lia|]. split; [split; [lia|discriminate]|]. rewrite E. reflexivity.
  - split; [lia|]. split; [split; [auto|lia]|].
    replace (h0 + 12) with (h0 + 1 * 12) by lia. apply Z.mod_add. lia.
  - split; [lia|]. split; [split; [lia|discriminate]|]. reflexivity.
Qed.

Lemma parse_time_clock_witness :
  parse_time "1:05 PM" = inr (mkTime 13 5) /\
  exists h m pm rest,
    "1:05 PM" = h ++ ":" ++ m ++ " " ++ meridian pm ++ rest /\
    all_digits h = true /\ all_digits m = true /\
    minute (mkTime 13 5) = int_of_digits m /\ 0 <= minute (mkTime 13 5) /\
    0 <= hour (mkTime 13 5) /\
    (1 <= int_of_digits h <= 12 ->
     hour (mkTime 13 5) <= 23 /\ (12 <= hour (mkTime 13 5) <-> pm = true) /\
     hour (mkTime 13 5) mod 12 = int_of_digits h mod 12).
Proof.
  split; [reflexivity|]. apply parse_time_clock. reflexivity.
Defined.

(* ------------------------------------------------------------------ *)
(** ** [meeting_time.split(' - ')] *)

Lemma prefix_app (sep : string) : forall s,
  String.prefix sep s = true -> exists rest, s = sep ++ rest.
Proof.
  induction sep as [|a sep IH]; intros s H; [now exists s|].
  destruct s as [|b s]; cbn in H; [discriminate|].
  destruct (ascii_dec a b) as [<-|]; [|discriminate].
  destruct (IH s H) as [rest ->]. now exists rest.
Qed.

Lemma substring_0_long (s : string) : forall m,
  (String.length s <= m)%nat -> substring 0 m s = s.
Proof.
  induction s as [|c s IH]; intros m Hm; destruct m as [|m]; cbn in *;
    [reflexivity|reflexivity|lia|].
  rewrite IH by lia. reflexivity.
Qed.

Lemma substring_skip (a b : string) (m : nat) :
  substring (String.length a) m (a ++ b) = substring 0 m b.
Proof. induction a as [|c a IH]; [reflexivity|]. exact IH. Qed.

Lemma substring_after (a b : string) :
  substring (String.length a) (String.length (a ++ b)) (a ++ b) = b.
Proof.
  rewrite substring_skip. apply substring_0_long.
  induction a as [|c a IH]; cbn; lia.
Qed.

Lemma string_length_app (a b : string) :
  String.length (a ++ b) = (String.length a + String.length b)%nat.
Proof. induction a as [|c a IH]; cbn; [reflexivity|]. now rewrite IH. Qed.

Lemma split_sep_aux_nonempty (f : nat) (sep s : string) : split_sep_aux f sep s <> [].
Proof.
  destruct f as [|f]; cbn; [discriminate|].
  destruct s as [|c s']; [discriminate|].
  destruct (String.prefix sep _); [discriminate|].
  destruct (split_sep_aux f sep s'); discriminate.
Qed.

Lemma join_cons_char (sep : string) (c : ascii) (l : string) (ls : list string) :
  join sep (String c l :: ls) = String c (join sep (l :: ls)).
Proof. destruct ls; reflexivity. Qed.

Lemma split_sep_aux_join (sep : string) (f : nat) : sep <> "" ->
  forall s, (String.length s < f)%nat -> join sep (split_sep_aux f sep s) = s.
Proof.
  intros Hsep. induction f as [|f IH]; intros s Hlen; [lia|].
  destruct s as [|c s']; [reflexivity|]. cbn [split_sep_aux].
  destruct (String.prefix sep (String c s')) eqn:Hp.
  - destruct (prefix_app sep _ Hp) as [rest Hrest]. rewrite Hrest, substring_after.
    assert (Hl : (String.length rest < f)%nat).
    { apply (f_equal String.length) in Hrest. rewrite string_length_app in Hrest.
      destruct sep; [congruence|]. cbn in Hrest, Hlen. lia. }
    pose proof (split_sep_aux_nonempty f sep rest) as Hne.
    destruct (split_sep_aux f sep rest) as [|y r] eqn:Hs; [congruence|].
    change (join sep ("" :: y :: r)) with ("" ++ sep ++ join sep (y :: r)).
    rewrite <- Hs, IH by exact Hl. reflexivity.
  - pose proof (split_sep_aux_nonempty f sep s') as Hne.
    destruct (split_sep_aux f sep s') as [|l ls] eqn:Hs; [congruence|].
    rewrite join_cons_char, <- Hs, IH; [reflexivity|]. cbn in Hlen. lia.
Qed.

(** [sep.join(s.split(sep)) == s] for a non-empty separator. *)
Theorem split_sep_join (sep s : string) : sep <> "" -> join sep (split_sep sep s) = s.
Proof. intros Hsep. apply split_sep_aux_join; [exact Hsep|lia]. Qed.

Lemma split_sep_join_witness :
  split_sep " - " "9:00 AM - 9:50 AM" = ["9:00 AM"; "9:50 AM"] /\
  join " - " (split_sep " - " "9:00 AM - 9:50 AM") = "9:00 AM - 9:50 AM".
Proof. split; [reflexivity|]. apply split_sep_join. discriminate. Defined.

(* ------------------------------------------------------------------ *)
(** ** Further properties of the serializer *)

Lemma has_nl_ics_date (d : Z) : has_nl (ics_date d) = false.
Proof.
  unfold ics_date. destruct (ord2ymd d) as [[y m] dd].
  rewrite !has_nl_app, has_nl_dec, !has_nl_fmt0d. reflexivity.
Qed.

Lemma split_nl_nonempty (s : string) : split_nl s <> [].
Proof.
  destruct s as [|c s]; cbn [split_nl]; [discriminate|].
  destruct (Ascii.eqb c (ascii_of_nat 10)); [discriminate|].
  destruct (split_nl s); discriminate.
Qed.

Lemma split_nl_app_nl (a b : string) :
  split_nl (a ++ NL ++ b) = app (split_nl a) (split_nl b).
Proof.
  induction a as [|c a IH]; [reflexivity|].
  cbn [append split_nl].
  change (a ++ String (ascii_of_nat 10) b) with (a ++ NL ++ b). rewrite IH.
  destruct (Ascii.eqb c (ascii_of_nat 10)); [reflexivity|].
  pose proof (split_nl_nonempty a) as Hne.
  destruct (split_nl a) as [|l ls]; [congruence|]. reflexivity.
Qed.

Lemma header_lines_no_nl : Forall (fun l => has_nl l = false) header_lines.
Proof.
  apply Forall_forall. intros l Hl. unfold header_lines in Hl.
  repeat (destruct Hl as [<-|Hl]; [reflexivity|]). destruct Hl.
Qed.

(** [write_ics] puts out, joined by CRLF, the header lines, then the
    non-blank lines of the events (split at each newline), then
    "END:VCALENDAR": blank lines are dropped and no line break is kept
    inside a line. *)
Theorem write_ics_lines (events : list string) :
  write_ics events
  = join CRLF (app header_lines
                 (app (filter (fun line => negb (is_blank line)) (split_nl (join NL events)))
                      ["END:VCALENDAR"])).
Proof.
  unfold write_ics, header, footer. cbv zeta.
  rewrite string_app_assoc.
  rewrite split_nl_join by (discriminate || exact header_lines_no_nl).
  change (split_nl (NL ++ join NL events ++ NL ++ "END:VCALENDAR" ++ NL))
    with ("" :: split_nl (join NL events ++ NL ++ "END:VCALENDAR" ++ NL)).
  rewrite split_nl_app_nl.
  change (split_nl ("END:VCALENDAR" ++ NL)) with ["END:VCALENDAR"; ""].
  rewrite !filter_app.
  change (filter (fun line => negb (is_blank line)) header_lines) with header_lines.
  change (filter (fun line => negb (is_blank line))
            ("" :: app (split_nl (join NL events)) ["END:VCALENDAR"; ""]))
    with (filter (fun line => negb (is_blank line))
            (app (split_nl (join NL events)) ["END:VCALENDAR"; ""])).
  rewrite filter_app. reflexivity.
Qed.

(** [all_day_event] fails (its [assert]) exactly when the summary holds a
    newline; otherwise, with a newline-free stamp and UID, it is the six
    lines of an all-day VEVENT, each ended by a newline. *)
Theorem all_day_event_lines (dtstamp uid : string) (date : Z) (summary : string) :
  has_nl dtstamp = false -> has_nl uid = false ->
  (all_day_event dtstamp uid date summary = None <-> has_nl summary = true) /\
  (has_nl summary = false ->
   exists text,
     all_day_event dtstamp uid date summary = Some text /\
     split_nl text = ["BEGIN:VEVENT"; "DTSTART;VALUE=DATE:" ++ ics_date date;
                      "SUMMARY:" ++ summary; "UID:" ++ uid; "DTSTAMP:" ++ dtstamp;
                      "END:VEVENT"; ""]).
Proof.
  intros Hst Hu. unfold all_day_event. split.
  - destruct (has_nl summary); split; congruence.
  - intros Hs. rewrite Hs. eexists. split; [reflexivity|].
    rewrite split_nl_line by reflexivity.
    rewrite split_nl_line2 by (reflexivity || apply has_nl_ics_date).
    rewrite split_nl_line2 by (reflexivity || assumption).
    rewrite split_nl_line2 by (reflexivity || assumption).
    rewrite split_nl_line2 by (reflexivity || assumption).
    reflexivity.
Qed.

Lemma all_day_event_lines_witness :
  has_nl "20240101T000000Z" = false /\ has_nl "uid-1" = false /\
  (all_day_event "20240101T000000Z" "uid-1" 739142 "Fall Break" = None <->
   has_nl "Fall Break" = true) /\
  (has_nl "Fall Break" = false ->
   exists text,
     all_day_event "20240101T000000Z" "uid-1" 739142 "Fall Break" = Some text /\
     split_nl text = ["BEGIN:VEVENT"; "DTSTART;VALUE=DATE:" ++ ics_date 739142;
                      "SUMMARY:" ++ "Fall Break"; "UID:" ++ "uid-1";
                      "DTSTAMP:" ++ "20240101T000000Z"; "END:VEVENT"; ""]).
Proof.
  split; [reflexivity|]. split; [reflexivity|].
  apply all_day_event_lines; reflexivity.
Defined.

(** A single (non-recurring) event, as the loop writes for an abnormal
    meeting: [recurring_event] with no pattern fails (its [assert]) exactly
    when exclusion dates are given; with none it writes no RRULE and no
    EXDATE, only two empty lines in their place. *)
Theorem recurring_event_single (dtstamp uid : string) (first_date : Z)
  (last_date : option Z) (summary location : string) (start_time_p end_time_p : time)
  (exceptions : list Z) :
  has_nl dtstamp = false -> has_nl uid = false ->
  has_nl summary = false -> has_nl location = false ->
  (recurring_event dtstamp uid first_date last_date summary location
     start_time_p end_time_p None exceptions = None <-> exceptions <> []) /\
  exists text,
    recurring_event dtstamp uid first_date last_date summary location
      start_time_p end_time_p None [] = Some text /\
    split_nl text =
      ["BEGIN:VEVENT"; "DTSTAMP:" ++ dtstamp; "SUMMARY:" ++ summary;
       "LOCATION:" ++ location;
       "DTSTART;TZID=America/Detroit:" ++ ics_datetime first_date start_time_p;
       "DTEND;TZID=America/Detroit:" ++ ics_datetime first_date end_time_p;
       "UID:" ++ uid; ""; ""; "END:VEVENT"; ""].
Proof.
  intros Hst Hu Hs Hl. split.
  - unfold recurring_event. destruct exceptions; split; congruence.
  - eexists. split; [reflexivity|]. unfold vevent_text.
    rewrite split_nl_line by reflexivity.
    rewrite split_nl_line2 by (reflexivity || assumption).
    rewrite split_nl_line2 by (reflexivity || assumption).
    rewrite split_nl_line2 by (reflexivity || assumption).
    rewrite split_nl_line2 by (reflexivity || apply has_nl_ics_datetime).
    rewrite split_nl_line2 by (reflexivity || apply has_nl_ics_datetime).
    rewrite split_nl_line2 by (reflexivity || assumption).
    rewrite split_nl_line by reflexivity.
    rewrite split_nl_line by reflexivity.
    reflexivity.
Qed.

Lemma recurring_event_single_witness :
  has_nl "20240101T000000Z" = false /\ has_nl "uid-1" = false /\
  has_nl "CS 106" = false /\ has_nl "SB 372" = false /\
  (recurring_event "20240101T000000Z" "uid-1" 739140 None "CS 106" "SB 372"
     (mkTime 9 0) (mkTime 9 50) None [739142] = None <-> [739142] <> []) /\
  exists text,
    recurring_event "20240101T000000Z" "uid-1" 739140 None "CS 106" "SB 372"
      (mkTime 9 0) (mkTime 9 50) None [] = Some text /\
    split_nl text =
      ["BEGIN:VEVENT"; "DTSTAMP:" ++ "20240101T000000Z"; "SUMMARY:" ++ "CS 106";
       "LOCATION:" ++ "SB 372";
       "DTSTART;TZID=America/Detroit:" ++ ics_datetime 739140 (mkTime 9 0);
       "DTEND;TZID=America/Detroit:" ++ ics_datetime 739140 (mkTime 9 50);
       "UID:" ++ "uid-1"; ""; ""; "END:VEVENT"; ""].
Proof.
  do 4 (split; [reflexivity|]).
  apply recurring_event_single; reflexivity.
Defined.

(* ------------------------------------------------------------------ *)
(** ** [get_sample_week_events] *)

Lemma next_monday_spec (f : nat) : forall cur,
  (7 - weekday cur) mod 7 <= Z.of_nat f ->
  next_monday f cur = cur + (7 - weekday cur) mod 7.
Proof.
  unfold weekday. induction f as [|f IH]; intros cur Hf; cbn [next_monday]; unfold weekday.
  - Z.div_mod_to_equations. lia.
  - destruct (Z.eqb_spec ((cur + 6) mod 7) 0) as [E|E].
    + rewrite E. change ((7 - 0) mod 7) with 0. lia.
    + rewrite IH by (Z.div_mod_to_equations; lia). Z.div_mod_to_equations. lia.
Qed.

Lemma sample_week_loop_zrange (days : list Z) (st et title : string) (n : nat) :
  forall k cur,
  sample_week_loop days st et title (zrange k n) cur
  = map (fun i => mkSampleEvent (cur + (i - k)) st et title)
        (filter (fun i => existsb (Z.eqb i) days) (zrange k n)).
Proof.
  induction n as [|n IH]; intros k cur; [reflexivity|].
  cbn [zrange sample_week_loop]. rewrite IH.
  destruct (existsb (Z.eqb k) days) eqn:Hk; cbn [filter]; rewrite Hk; cbn [app map].
  - f_equal; [f_equal; lia|]. apply map_ext. intros i. f_equal. lia.
  - apply map_ext. intros i. f_equal. lia.
Qed.

(** The preview week: for a valid pattern, [get_sample_week_events] finds
    the Monday on or after [sample_week_start] (at most six days later) and
    yields, in weekday order and once each, an event on [Monday + i] for
    each weekday index [i] of the pattern, with the times written "HH:MM". *)
Theorem get_sample_week_events_days (pattern : string) (sample_week_start : Z)
  (start_time end_time : time) (title : string) (days : list Z) :
  pattern_days pattern = Some days ->
  exists monday,
    weekday monday = 0 /\ sample_week_start <= monday <= sample_week_start + 6 /\
    (forall i, 0 <= i <= 6 -> weekday (monday + i) = i) /\
    get_sample_week_events pattern sample_week_start start_time end_time title
    = Some (map (fun i => mkSampleEvent (monday + i)
                   (fmt0d 2 (hour start_time) ++ ":" ++ fmt0d 2 (minute start_time))
                   (fmt0d 2 (hour end_time) ++ ":" ++ fmt0d 2 (minute end_time)) title)
                (filter (fun i => existsb (Z.eqb i) days) [0; 1; 2; 3; 4; 5; 6])).
Proof.
  intros Hp. exists (sample_week_start + (7 - weekday sample_week_start) mod 7).
  unfold get_sample_week_events. rewrite Hp.
  rewrite next_monday_spec
    by (unfold weekday; Z.div_mod_to_equations; lia).
  change [0; 1; 2; 3; 4; 5; 6] with (zrange 0 7).
  rewrite sample_week_loop_zrange.
  unfold weekday. split; [Z.div_mod_to_equations; lia|].
  split; [Z.div_mod_to_equations; lia|].
  split; [intros i Hi; Z.div_mod_to_equations; lia|].
  f_equal. apply map_ext. intros i. f_equal. lia.
Qed.

Lemma get_sample_week_events_days_witness :
  pattern_days "MWF" = Some [0; 2; 4] /\
  exists monday,
    weekday monday = 0 /\ 739133 <= monday <= 739133 + 6 /\
    (forall i, 0 <= i <= 6 -> weekday (monday + i) = i) /\
    get_sample_week_events "MWF" 739133 (mkTime 9 5) (mkTime 13 50) "CS 106"
    = Some (map (fun i => mkSampleEvent (monday + i)
                   (fmt0d 2 (hour (mkTime 9 5)) ++ ":" ++ fmt0d 2 (minute (mkTime 9 5)))
                   (fmt0d 2 (hour (mkTime 13 50)) ++ ":" ++ fmt0d 2 (minute (mkTime 13 50)))
                   "CS 106")
                (filter (fun i => existsb (Z.eqb i) [0; 2; 4]) [0; 1; 2; 3; 4; 5; 6])).
Proof.
  split; [reflexivity|]. apply get_sample_week_events_days. reflexivity.
Defined.

(* ------------------------------------------------------------------ *)
(** ** Calendar dates: [ord2ymd] after [ymd2ord] *)

Lemma ord2ymd_decomp (a b c e k : Z) :
  0 <= b <= 3 -> 0 <= c <= 24 -> 0 <= e <= 3 -> 0 <= k <= 364 ->
  ord2ymd (146097 * a + 36524 * b + 1461 * c + 365 * e + k + 1)
  = (400 * a + 100 * b + 4 * c + e + 1,
     fst (month_step ((e =? 3) && (negb (c =? 24) || (b =? 3))) k),
     snd (month_step ((e =? 3) && (negb (c =? 24) || (b =? 3))) k)).
Proof.
  intros Hb Hc He Hk. unfold ord2ymd, month_step, DI400Y, DI100Y, DI4Y.
  assert (H1 : (146097 * a + 36524 * b + 1461 * c + 365 * e + k + 1 - 1) / 146097 = a)
    by (Z.div_mod_to_equations; lia).
  assert (H2 : (146097 * a + 36524 * b + 1461 * c + 365 * e + k + 1 - 1) mod 146097
               = 36524 * b + 1461 * c + 365 * e + k) by (Z.div_mod_to_equations; lia).
  assert (H3 : (36524 * b + 1461 * c + 365 * e + k) / 36524 = b)
    by (Z.div_mod_to_equations; lia).
  assert (H4 : (36524 * b + 1461 * c + 365 * e + k) mod 36524 = 1461 * c + 365 * e + k)
    by (Z.div_mod_to_equations; lia).
  assert (H5 : (1461 * c + 365 * e + k) / 1461 = c) by (Z.div_mod_to_equations; lia).
  assert (H6 : (1461 * c + 365 * e + k) mod 1461 = 365 * e + k)
    by (Z.div_mod_to_equations; lia).
  assert (H7 : (365 * e + k) / 365 = e) by (Z.div_mod_to_equations; lia).
  assert (H8 : (365 * e + k) mod 365 = k) by (Z.div_mod_to_equations; lia).
  cbv zeta. rewrite H1, H2, H3, H4, H5, H6, H7, H8.
  replace (e =? 4) with false by (symmetry; apply Z.eqb_neq; lia).
  replace (b =? 4) with false by (symmetry; apply Z.eqb_neq; lia).
  cbn [orb].
  match goal with |- context [if ?x >? k then _ else _] => destruct (x >? k) end;
    cbn [fst snd]; f_equal; f_equal; lia.
Qed.

Lemma ord2ymd_decomp_last (a b c : Z) :
  0 <= b <= 3 -> 0 <= c <= 24 -> c < 24 \/ b = 3 ->
  ord2ymd (146097 * a + 36524 * b + 1461 * c + 365 * 3 + 365 + 1)
  = (400 * a + 100 * b + 4 * c + 3 + 1, 12, 31).
Proof.
  intros Hb Hc Hcb. unfold ord2ymd, DI400Y, DI100Y, DI4Y.
  assert (H1 : (146097 * a + 36524 * b + 1461 * c + 365 * 3 + 365 + 1 - 1) / 146097 = a)
    by (Z.div_mod_to_equations; lia).
  assert (H2 : (146097 * a + 36524 * b + 1461 * c + 365 * 3 + 365 + 1 - 1) mod 146097
               = 36524 * b + 1461 * c + 1460) by (Z.div_mod_to_equations; lia).
  cbv zeta. rewrite H1, H2.
  destruct (Z.ltb_spec c 24) as [Hc24|Hc24].
  - assert (H3 : (36524 * b + 1461 * c + 1460) / 36524 = b) by (Z.div_mod_to_equations; lia).
    assert (H4 : (36524 * b + 1461 * c + 1460) mod 36524 = 1461 * c + 1460)
      by (Z.div_mod_to_equations; lia).
    assert (H5 : (1461 * c + 1460) / 1461 = c) by (Z.div_mod_to_equations; lia).
    assert (H6 : (1461 * c + 1460) mod 1461 = 1460) by (Z.div_mod_to_equations; lia).
    rewrite H3, H4, H5, H6.
    change (1460 / 365) with 4. change (1460 mod 365) with 0. cbn [Z.eqb Pos.eqb orb].
    f_equal; f_equal; lia.
  - assert (c = 24) by lia. assert (b = 3) by lia. subst b c.
    change ((36524 * 3 + 1461 * 24 + 1460) / 36524) with 4.
    change ((36524 * 3 + 1461 * 24 + 1460) mod 36524) with 0.
    cbn [Z.eqb Pos.eqb orb]. rewrite orb_true_r. f_equal; f_equal. Z.div_mod_to_equations. lia.
Qed.

Lemma In_zrange (x s : Z) (n : nat) : In x (zrange s n) <-> s <= x < s + Z.of_nat n.
Proof.
  revert s. induction n as [|n IH]; intros s; cbn [zrange In]; [lia|].
  rewrite IH. lia.
Qed.

Lemma month_table_spec (leap : bool) (m d : Z) :
  month_table_ok leap = true -> 1 <= m <= 12 ->
  1 <= d <= (if (m =? 2) && leap then 29 else at_month DAYS_IN_MONTH m) ->
  0 <= at_month DAYS_BEFORE_MONTH m + (if (m >? 2) && leap then 1 else 0) /\
  at_month DAYS_BEFORE_MONTH m + (if (m >? 2) && leap then 1 else 0)
    + (if (m =? 2) && leap then 29 else at_month DAYS_IN_MONTH m)
    <= 365 + (if leap then 1 else 0) /\
  month_step leap (at_month DAYS_BEFORE_MONTH m + (if (m >? 2) && leap then 1 else 0) + d - 1)
  = (m, d).
Proof.
  unfold month_table_ok. intros Hok Hm Hd.
  rewrite forallb_forall in Hok.
  assert (Hin : In m (zrange 1 12)) by (apply In_zrange; lia).
  specialize (Hok m Hin).
  cbv zeta in Hok. apply andb_true_iff in Hok as [Hok Hdays].
  apply andb_true_iff in Hok as [H0 H365]. apply Z.leb_le in H0, H365.
  split; [exact H0|]. split; [exact H365|].
  rewrite forallb_forall in Hdays.
  assert (Hdin : In d (zrange 1 (Z.to_nat (if (m =? 2) && leap then 29
                                             else at_month DAYS_IN_MONTH m))))
    by (apply In_zrange; lia).
  specialize (Hdays d Hdin).
  destruct (month_step _ _) as [m' d']. apply andb_true_iff in Hdays as [E1 E2].
  apply Z.eqb_eq in E1, E2. now subst.
Qed.

Lemma month_table_ok_true : month_table_ok true = true.
Proof. vm_compute. reflexivity. Qed.

Lemma month_table_ok_false : month_table_ok false = true.
Proof. vm_compute. reflexivity. Qed.

(** CPython's [_ord2ymd] inverts [_ymd2ord] on every valid date from year 1
    on, so [ics_date] writes the year a date ordinal was made from in
    decimal without padding, then its month and day on two digits each. *)
Theorem ord2ymd_ymd2ord (y m d : Z) :
  1 <= y -> 1 <= m <= 12 -> 1 <= d <= days_in_month y m ->
  ord2ymd (ymd2ord y m d) = (y, m, d) /\
  ics_date (ymd2ord y m d) = dec (Z.to_N y) ++ fmt0d 2 m ++ fmt0d 2 d.
Proof.
  intros Hy Hm Hd.
  assert (Hround : ord2ymd (ymd2ord y m d) = (y, m, d)).
  { set (a := (y - 1) / 400). set (b := ((y - 1) mod 400) / 100).
    set (c := ((y - 1) mod 100) / 4). set (e := (y - 1) mod 4).
    assert (HY : y - 1 = 400 * a + 100 * b + 4 * c + e /\
                 0 <= b <= 3 /\ 0 <= c <= 24 /\ 0 <= e <= 3)
      by (subst a b c e; Z.div_mod_to_equations; lia).
    destruct HY as (HY & Hb & Hc & He). clearbody a b c e.
    assert (Hdby : days_before_year y = 146097 * a + 36524 * b + 1461 * c + 365 * e).
    { unfold days_before_year. cbv zeta. rewrite HY. Z.div_mod_to_equations. lia. }
    assert (H4 : (y mod 4 =? 0) = (e =? 3)).
    { destruct (Z.eqb_spec (y mod 4) 0), (Z.eqb_spec e 3); try reflexivity;
        exfalso; Z.div_mod_to_equations; lia. }
    assert (H100 : (y mod 100 =? 0) = (c =? 24) && (e =? 3)).
    { destruct (Z.eqb_spec (y mod 100) 0), (Z.eqb_spec c 24), (Z.eqb_spec e 3);
        try reflexivity; exfalso; Z.div_mod_to_equations; lia. }
    assert (H400 : (y mod 400 =? 0) = (b =? 3) && (c =? 24) && (e =? 3)).
    { destruct (Z.eqb_spec (y mod 400) 0), (Z.eqb_spec b 3), (Z.eqb_spec c 24),
        (Z.eqb_spec e 3); try reflexivity; exfalso; Z.div_mod_to_equations; lia. }
    assert (Hleap : is_leap y = (e =? 3) && (negb (c =? 24) || (b =? 3))).
    { unfold is_leap. rewrite H4, H100, H400.
      destruct (e =? 3), (c =? 24), (b =? 3); reflexivity. }
    destruct (month_table_spec (is_leap y) m d
                (ltac:(destruct (is_leap y); [exact month_table_ok_true|exact month_table_ok_false]))
                Hm Hd) as (H0 & H365 & Hms).
    fold (days_before_month y m) in H0, H365, Hms.
    assert (Hord : ymd2ord y m d
                   = 146097 * a + 36524 * b + 1461 * c + 365 * e
                     + (days_before_month y m + d - 1) + 1)
      by (unfold ymd2ord; lia).
    rewrite Hord.
    destruct (Z.leb_spec (days_before_month y m + d - 1) 364) as [Hk|Hk].
    - rewrite ord2ymd_decomp by lia. rewrite <- Hleap, Hms. cbn [fst snd].
      f_equal. f_equal. lia.
    - assert (Hl : is_leap y = true).
      { destruct (is_leap y) eqn:El; [reflexivity|]. exfalso.
        unfold days_in_month in Hd. rewrite El in Hd. rewrite andb_false_r in Hd, H365.
        cbv beta iota in H365. lia. }
      rewrite Hl in Hms.
      assert (Hk365 : days_before_month y m + d - 1 = 365).
      { unfold days_in_month in Hd. rewrite Hl, andb_true_r in Hd, H365.
        cbv beta iota in H365. lia. }
      rewrite Hk365 in Hms |- *. change (month_step true 365) with (12, 31) in Hms.
      injection Hms as <- <-.
      rewrite Hleap in Hl. apply andb_true_iff in Hl as [He3 Hcb].
      apply Z.eqb_eq in He3. subst e.
      assert (Hcb' : c < 24 \/ b = 3).
      { destruct (Z.eqb_spec c 24), (Z.eqb_spec b 3); cbn in Hcb; try discriminate; lia. }
      rewrite ord2ymd_decomp_last by assumption. f_equal. f_equal. lia. }
  split; [exact Hround|]. unfold ics_date. rewrite Hround. reflexivity.
Qed.

Lemma ord2ymd_ymd2ord_witness :
  (1 <= 5 /\ 1 <= 3 <= 12 /\ 1 <= 1 <= days_in_month 5 3) /\
  (ord2ymd (ymd2ord 5 3 1) = (5, 3, 1) /\
   ics_date (ymd2ord 5 3 1) = dec (Z.to_N 5) ++ fmt0d 2 3 ++ fmt0d 2 1) /\
  dec (Z.to_N 5) ++ fmt0d 2 3 ++ fmt0d 2 1 = "50301".
Proof.
  assert (E : days_in_month 5 3 = 31) by reflexivity.
  split; [rewrite E; lia|]. split; [|reflexivity].
  apply ord2ymd_ymd2ord; [lia|lia|]. rewrite E. lia.
Defined.
